(** * CodeReview Agent: the session manager of [src/agent.py]

    A shallow embedding of the class [CodeReviewAgent] and of the functions it
    relies on, followed by the properties of the conversation history that the
    specification states.

    Conventions.
    - A Python [str] is a [string]: the sequence of the bytes of its UTF-8
      encoding.  The only characters the code inspects are the ASCII dot and
      slash, which never occur inside a multi-byte sequence, so working on
      bytes agrees with working on code points.
    - [Optional[str]] is [option string]; [None] is [None].
    - A method is a computation over the state of the process that either
      returns or raises; what was written to the state before an exception
      was raised stays written, as in Python.
    - The two collaborators (the chat completion endpoint and the file
      system) are functions given to the methods that call them. *)

From stdpp Require Import base option list strings gmap.
From Stdlib Require Import Ascii ZArith QArith.

Local Open Scope string_scope.
Local Open Scope list_scope.
Local Close Scope Q_scope.

(** ** Strings *)

Module Str.

Local Open Scope Z_scope.

Definition nl : string := String (Ascii.ascii_of_nat 10) "".

Fixpoint rfind_from (c : Ascii.ascii) (s : string) (i last : Z) : Z :=
  match s with
  | EmptyString => last
  | String a s' => rfind_from c s' (i + 1) (if Ascii.eqb a c then i else last)
  end.

(** [s.rfind(c)] for a one-character [c]: the highest index of [c], or -1. *)
Definition rfind (c : Ascii.ascii) (s : string) : Z := rfind_from c s 0 (-1).

Fixpoint drop (n : nat) (s : string) : string :=
  match n, s with
  | O, _ => s
  | S n', String _ s' => drop n' s'
  | S _, EmptyString => EmptyString
  end.

Fixpoint take (n : nat) (s : string) : string :=
  match n, s with
  | S n', String a s' => String a (take n' s')
  | _, _ => EmptyString
  end.

(** [s[:k]] and [s[k:]] for [0 <= k]. *)
Definition slice_to (k : Z) (s : string) : string := take (Z.to_nat k) s.
Definition slice_from (k : Z) (s : string) : string := drop (Z.to_nat k) s.

(** [s[i:i+1]] *)
Definition char_at (i : Z) (s : string) : string :=
  take 1 (drop (Z.to_nat i) s).

(** [s.lstrip(c)] for a one-character [c]. *)
Fixpoint lstrip (c : Ascii.ascii) (s : string) : string :=
  match s with
  | String a s' => if Ascii.eqb a c then lstrip c s' else s
  | EmptyString => EmptyString
  end.

(** Python's truth value of a [str]: false exactly for the empty one. *)
Definition truthy (s : string) : bool :=
  match s with EmptyString => false | String _ _ => true end.

(** [needle in s] *)
Fixpoint contains (needle s : string) : bool :=
  String.prefix needle s
  || match s with
     | EmptyString => false
     | String _ s' => contains needle s'
     end.

End Str.

(** ** [os.path.splitext] (POSIX flavour)

    CPython's [genericpath._splitext] with [sep = "/"], no
    [altsep] and [extsep = "."]: the extension runs from the last dot of the
    last path component to the end, and the dots a file name starts with are
    not extension dots. *)

Module OsPath.

Local Open Scope Z_scope.

(** The [while filenameIndex < dotIndex] loop; [n] is the number of
    iterations left, [dotIndex - filenameIndex]. *)
Fixpoint skip_leading_dots (n : nat) (p : string) (filenameIndex dotIndex : Z)
  : string * string :=
  match n with
  | O => (p, "")
  | S n' =>
      if negb (String.eqb (Str.char_at filenameIndex p) ".")
      then (Str.slice_to dotIndex p, Str.slice_from dotIndex p)
      else skip_leading_dots n' p (filenameIndex + 1) dotIndex
  end.

Definition splitext (p : string) : string * string :=
  let sepIndex := Str.rfind "/"%char p in
  let dotIndex := Str.rfind "."%char p in
  if sepIndex <? dotIndex
  then skip_leading_dots (Z.to_nat (dotIndex - (sepIndex + 1))) p (sepIndex + 1) dotIndex
  else (p, "").

End OsPath.

(** ** Exceptions and results *)

(** The part of Python's exception hierarchy that the handlers of
    [review_file] tell apart.  Each carries [str(e)]. *)
Inductive exn : Type :=
  | FileNotFoundError (msg : string)
  | IndexError (msg : string)
  | Exception (msg : string)       (* any other class derived from Exception *)
  | BaseException (msg : string).  (* KeyboardInterrupt, SystemExit, ... *)

Definition str (e : exn) : string :=
  match e with
  | FileNotFoundError msg | IndexError msg | Exception msg | BaseException msg => msg
  end.

(** [isinstance(e, Exception)] *)
Definition is_Exception (e : exn) : bool :=
  match e with
  | BaseException _ => false
  | _ => true
  end.

(** [isinstance(e, FileNotFoundError)] *)
Definition is_FileNotFoundError (e : exn) : bool :=
  match e with
  | FileNotFoundError _ => true
  | _ => false
  end.

Inductive result (A : Type) : Type :=
  | Return (a : A)
  | Raise (e : exn).
Arguments Return {A} a.
Arguments Raise {A} e.

(** ** Data model *)

Inductive Role : Type := system | user | assistant.

#[global] Instance Role_eq_dec : EqDecision Role.
Proof. solve_decision. Defined.

(** The value stored under the key ["role"]. *)
Definition role_name (r : Role) : string :=
  match r with
  | system => "system"
  | user => "user"
  | assistant => "assistant"
  end.

(** [{"role": r, "content": c}] *)
Record Message : Type := mkMessage { role : Role; content : string }.

#[global] Instance Message_eq_dec : EqDecision Message.
Proof. solve_decision. Defined.

(** The keyword arguments of [client.chat.completions.create]. *)
Record Request : Type := mkRequest {
  req_model : string;
  req_messages : list Message;
  req_temperature : Q;
  req_max_tokens : Z
}.

(** What the code reads of a completion: the [message.content] of each of
    its [choices], taken as text (the methods are annotated [-> str]). *)
Record Response : Type := mkResponse { choices : list string }.

(** The chat completion collaborator: it answers a request or raises. *)
Definition Client : Type := Request -> result Response.

(** What [open(path, "r", encoding="utf-8")] followed by [f.read()] gives. *)
Inductive ReadOutcome : Type :=
  | Contents (text : string)   (* the decoded text of a readable file *)
  | NotFound (msg : string)    (* FileNotFoundError *)
  | Unreadable (msg : string). (* PermissionError, IsADirectoryError,
                                  UnicodeDecodeError, ValueError, ... *)

(** The file system collaborator. *)
Definition FileSystem : Type := string -> ReadOutcome.

(** The fields of a [CodeReviewAgent]; [self.client] is the [Client] the
    methods are given. *)
Record Agent : Type := mkAgent {
  model : string;
  history : list Message;
  last_code : option string
}.

(** The state of the process: the agent, the requests the client has been
    sent so far, each with the messages the history held when it was sent,
    and the lines printed. *)
Record World : Type := mkWorld {
  agent : Agent;
  sent : list Request;
  stdout : list string
}.

(** ** Computations

    [M A] is a method body: from the state of the process to what it returns
    or raises, and the state it leaves. *)

Definition M (A : Type) : Type := World -> result A * World.

#[global] Instance M_ret : MRet M := fun A a w => (Return a, w).

#[global] Instance M_bind : MBind M := fun A B f m w =>
  match m w with
  | (Return a, w') => f a w'
  | (Raise e, w') => (Raise e, w')
  end.

Definition raise {A : Type} (e : exn) : M A := fun w => (Raise e, w).

(** [try: body except ... as e: handler e]; the handler runs in the state the
    body left. *)
Definition try_except {A : Type} (body : M A) (handler : exn -> M A) : M A :=
  fun w =>
    match body w with
    | (Return a, w') => (Return a, w')
    | (Raise e, w') => handler e w'
    end.

Definition self_model : M string := fun w => (Return (model (agent w)), w).
Definition self_history : M (list Message) := fun w => (Return (history (agent w)), w).
Definition self_last_code : M (option string) := fun w => (Return (last_code (agent w)), w).

(** [self.history = h] *)
Definition set_history (h : list Message) : M unit := fun w =>
  (Return tt,
   mkWorld (mkAgent (model (agent w)) h (last_code (agent w))) (sent w) (stdout w)).

(** [self.history.append(m)] *)
Definition history_append (m : Message) : M unit := fun w =>
  (Return tt,
   mkWorld (mkAgent (model (agent w)) (history (agent w) ++ [m]) (last_code (agent w)))
           (sent w) (stdout w)).

(** [self.last_code = c] *)
Definition set_last_code (c : option string) : M unit := fun w =>
  (Return tt,
   mkWorld (mkAgent (model (agent w)) (history (agent w)) c) (sent w) (stdout w)).

(** [print(line)], on an output stream that takes any text. *)
Definition print (line : string) : M unit := fun w =>
  (Return tt, mkWorld (agent w) (sent w) (stdout w ++ [line])).

(** [client.chat.completions.create(...)]: the request reaches the client,
    which answers or raises. *)
Definition completions_create (client : Client) (req : Request) : M Response :=
  fun w => (client req, mkWorld (agent w) (sent w ++ [req]) (stdout w)).

(** [response.choices[0].message.content] *)
Definition first_choice (response : Response) : M string :=
  match choices response with
  | reply :: _ => mret reply
  | [] => raise (IndexError "list index out of range")
  end.

(** [with open(file_path, "r", encoding="utf-8") as f: code = f.read()] *)
Definition open_read (fs : FileSystem) (file_path : string) : M string :=
  match fs file_path with
  | Contents text => mret text
  | NotFound msg => raise (FileNotFoundError msg)
  | Unreadable msg => raise (Exception msg)
  end.

(** ** The agent *)

Definition SYSTEM_PROMPT : string := "
You are **CodeReview Agent**, an expert AI assistant specialised in reviewing code.

Your capabilities:
- Detect bugs, logic errors, and security vulnerabilities
- Suggest performance optimisations and best practices
- Enforce coding standards (PEP8, SOLID, DRY, etc.)
- Explain complex code in plain English
- Generate unit-test stubs for reviewed functions
- Provide refactored alternatives where relevant

Response format:
1. 📋 **Summary** – one-line verdict (Pass / Needs Work / Critical Issues)
2. 🐛 **Issues Found** – numbered list with severity [LOW / MEDIUM / HIGH / CRITICAL]
3. 💡 **Suggestions** – actionable improvements
4. ✅ **Refactored Snippet** – improved code (if applicable)
5. 🧪 **Test Stubs** – basic unit tests (if applicable)

Always be concise, constructive, and beginner-friendly.
".

Definition system_message : Message := mkMessage system SYSTEM_PROMPT.

(** [build_client]: what it prints, and the model name it returns or what
    it raises.  [getenv] is [os.getenv]; [openai key] is what
    [OpenAI(api_key=key)] raises, if it raises; [cannot_print text] is what
    [print(text)] raises, if it raises, as [UnicodeEncodeError] does on an
    output stream that cannot encode the text.  Without a key the function
    ends in [sys.exit(1)]. *)
Definition build_client (getenv : string -> option string)
  (openai cannot_print : string -> option exn) : list string * result string :=
  match getenv "OPENAI_API_KEY" with
  | Some (String _ _ as openai_api_key) =>
      match openai openai_api_key with
      | Some e => ([], Raise e)
      | None =>
          let model := default "gpt-4" (getenv "OPENAI_MODEL") in
          let line := "✅ Connected via OpenAI (model: " +:+ model +:+ ")" +:+ Str.nl in
          match cannot_print line with
          | Some e => ([], Raise e)
          | None => ([line], Return model)
          end
      end
  | _ =>
      match cannot_print "❌ No API credentials found." with
      | Some e => ([], Raise e)
      | None =>
          match cannot_print "   Set OPENAI_API_KEY environment variable." with
          | Some e => (["❌ No API credentials found."], Raise e)
          | None =>
              (["❌ No API credentials found.";
                "   Set OPENAI_API_KEY environment variable."],
               Raise (BaseException "1"))
          end
      end
  end.

(** The fields [__init__] sets once [build_client] has returned. *)
Definition new_agent (model : string) : Agent :=
  mkAgent model [system_message] None.

(** [CodeReviewAgent()] *)
Definition CodeReviewAgent (getenv : string -> option string)
  (openai cannot_print : string -> option exn) : list string * result Agent :=
  match build_client getenv openai cannot_print with
  | (out, Return model) => (out, Return (new_agent model))
  | (out, Raise e) => (out, Raise e)
  end.

Definition lang_map : gmap string string :=
  list_to_map [("py", "Python"); ("js", "JavaScript"); ("ts", "TypeScript");
               ("java", "Java"); ("cs", "C#"); ("go", "Go"); ("rs", "Rust");
               ("cpp", "C++"); ("c", "C"); ("rb", "Ruby"); ("php", "PHP")].

(** [os.path.splitext(file_path)[1].lstrip(".")] *)
Definition extension (file_path : string) : string :=
  Str.lstrip "."%char (snd (OsPath.splitext file_path)).

(** [lang_map.get(ext, ext or "unknown")] *)
Definition language_of (file_path : string) : string :=
  let ext := extension file_path in
  default (if Str.truthy ext then ext else "unknown") (lang_map !! ext).

Definition review_prompt (code language : string) : string :=
  "Please review the following " +:+ language +:+ " code:" +:+ Str.nl +:+ Str.nl
  +:+ "```" +:+ Str.nl +:+ code +:+ Str.nl +:+ "```".

Definition no_code_reply : string :=
  "No code has been reviewed yet. Please review some code first.".

Definition explain_prompt : string :=
  "Can you explain what the last reviewed code does in simple terms?".

Section Methods.

Context (client : Client) (fs : FileSystem).

Definition chat_request (model : string) (messages : list Message) : Request :=
  mkRequest model messages (3 # 10)%Q 2048%Z.

Definition chat (user_message : string) : M string :=
  history_append (mkMessage user user_message);;
  model ← self_model;
  messages ← self_history;
  response ← completions_create client (chat_request model messages);
  reply ← first_choice response;
  history_append (mkMessage assistant reply);;
  mret reply.

Definition review_code (code language : string) : M string :=
  set_last_code (Some code);;
  chat (review_prompt code language).

(** [review_code(code)], with the default [language="auto-detect"]. *)
Definition review_code_default (code : string) : M string :=
  review_code code "auto-detect".

Definition review_file (file_path : string) : M string :=
  try_except
    (code ← open_read fs file_path;
     let language := language_of file_path in
     print ("📂 Reviewing file: " +:+ file_path +:+ " (" +:+ language +:+ ")" +:+ Str.nl);;
     review_code code language)
    (fun e =>
       if is_FileNotFoundError e
       then mret ("❌ File not found: " +:+ file_path)
       else if is_Exception e
       then mret ("❌ Error reading file: " +:+ str e)
       else raise e).

Definition explain_last : M string :=
  code ← self_last_code;
  if from_option Str.truthy false code
  then chat explain_prompt
  else mret no_code_reply.

Definition clear_session : M unit :=
  set_history [system_message];;
  set_last_code None;;
  print ("🔄 Session cleared. Starting fresh!" +:+ Str.nl).

End Methods.

(** ** Sessions

    The operations a caller has on an agent, and the states a session goes
    through.  Each operation may meet a different client and file system, and
    the state an operation leaves when it raises is a state of the session
    too. *)

Inductive Op : Type :=
  | OpChat (user_message : string)
  | OpReviewCode (code language : string)
  | OpReviewFile (file_path : string)
  | OpExplainLast
  | OpClear.

Definition run (client : Client) (fs : FileSystem) (op : Op) : M (option string) :=
  match op with
  | OpChat user_message => reply ← chat client user_message; mret (Some reply)
  | OpReviewCode code language => reply ← review_code client code language; mret (Some reply)
  | OpReviewFile file_path => reply ← review_file client fs file_path; mret (Some reply)
  | OpExplainLast => reply ← explain_last client; mret (Some reply)
  | OpClear => clear_session;; mret None
  end.

Definition is_clear (op : Op) : bool :=
  match op with OpClear => true | _ => false end.

Inductive reachable : World -> Prop :=
  | reachable_init (model : string) (out : list string) :
      reachable (mkWorld (new_agent model) [] out)
  | reachable_step (client : Client) (fs : FileSystem) (op : Op) (w : World) :
      reachable w -> reachable (snd (run client fs op w)).

(** A history that starts with the system message and holds no other message
    of that role. *)
Definition one_system_message (h : list Message) : Prop :=
  exists rest, h = system_message :: rest /\ Forall (fun m => role m <> system) rest.

(** ** The states [chat] leaves *)

(** The history once the user turn is appended, and the request made of it. *)
Definition asked (user_message : string) (w : World) : list Message :=
  history (agent w) ++ [mkMessage user user_message].

Definition request_for (user_message : string) (w : World) : Request :=
  chat_request (model (agent w)) (asked user_message w).

(** The state [chat] leaves when no reply is appended. *)
Definition unanswered (user_message : string) (w : World) : World :=
  mkWorld (mkAgent (model (agent w)) (asked user_message w) (last_code (agent w)))
          (sent w ++ [request_for user_message w]) (stdout w).

(** The state [chat] leaves when it returns [reply]. *)
Definition answered (user_message reply : string) (w : World) : World :=
  mkWorld (mkAgent (model (agent w))
                   (asked user_message w ++ [mkMessage assistant reply])
                   (last_code (agent w)))
          (sent w ++ [request_for user_message w]) (stdout w).

(** ** Sample collaborators and states *)

(** A client that answers every request with one choice, as the mock of
    [test_agent.py] does. *)
Definition replying (text : string) : Client :=
  fun _ => Return (mkResponse [text]).

(** A client whose every request fails with [e]. *)
Definition failing (e : exn) : Client := fun _ => Raise e.

Definition connection_error : exn := Exception "Connection error.".

(** A file system with one readable file. *)
Definition one_file (path text : string) : FileSystem :=
  fun p => if String.eqb p path then Contents text
           else NotFound ("[Errno 2] No such file or directory: '" +:+ p +:+ "'").

(** A fresh agent, nothing sent and nothing printed. *)
Definition fresh : World := mkWorld (new_agent "gpt-4") [] [].

(** The session after [review_file] on an empty file. *)
Definition after_empty_file : World :=
  snd (review_file (replying "Nothing to review.") (one_file "empty.py" "") "empty.py" fresh).

(** The session of the specification's scenario: [review_code("x = 1/0")] on
    a fresh agent. *)
Definition after_review : World :=
  snd (review_code_default (replying "Critical Issues") "x = 1/0" fresh).

(** Whether [path] names a file that can be opened and decoded. *)
Definition readable (fs : FileSystem) (path : string) : bool :=
  match fs path with
  | Contents _ => true
  | _ => false
  end.

(** What [review_file] makes of the outcome of the [try] block: the two
    [except] clauses in their order. *)
Definition handled (file_path : string) (r : result string) : result string :=
  match r with
  | Return reply => Return reply
  | Raise e =>
      if is_FileNotFoundError e then Return ("❌ File not found: " +:+ file_path)
      else if is_Exception e then Return ("❌ Error reading file: " +:+ str e)
      else Raise e
  end.

(** ** The command line

    [run_single], [run_interactive] and [main].  The console is what
    [input] gives, line by line, until it raises [EOFError] or
    [KeyboardInterrupt]; each line comes with the collaborators as they are
    when it is handled.  [input] writes its prompt itself: [stdout] keeps what
    [print] was given. *)

Definition WELCOME_BANNER : string := "
╔══════════════════════════════════════════════════════════╗
║        🤖  CodeReview Agent  |  Powered by Github Copilot       ║
║          Microsoft Agents League 2026 Submission           ║
╚══════════════════════════════════════════════════════════╝
Commands:
  review <code>   – paste code inline
  file <path>     – review a local file
  explain         – explain the last reviewed code
  clear           – start a new session
  exit / quit     – exit the agent

Type your message or a command to get started.
".

(** ["\nAgent >\n" + reply + "\n"] *)
Definition agent_says (reply : string) : string :=
  Str.nl +:+ "Agent >" +:+ Str.nl +:+ reply +:+ Str.nl.

(** An optional text that is given and not empty: the test [if x:] on an
    [Optional[str]]. *)
Definition given (x : option string) : option string :=
  match x with
  | Some (String _ _ as text) => Some text
  | _ => None
  end.

Record Turn : Type := mkTurn {
  typed : string;
  turn_client : Client;
  turn_fs : FileSystem
}.

(** [args] as [argparse] leaves them. *)
Record Args : Type := mkArgs {
  args_file : option string;
  args_code : option string;
  args_output : option string
}.

(** The dictionary [main] hands to [json.dump]. *)
Record Saved : Type := mkSaved {
  data_file : option string;
  data_code : option string;
  data_history : list Message
}.

(** How a run of [main] ends: before there is an agent, or with the state of
    the process and either the exception raised or the file written, if any. *)
Inductive Outcome : Type :=
  | NoAgent (out : list string) (e : exn)
  | Ran (r : result (option (string * Saved))) (w : World).

Section CommandLine.

(** [str.strip] and [str.lower].  The keywords [lower] is compared with are
    ASCII, and the characters Python lowers to their letters are ASCII too, so
    where [lower] starts with ["file "] or ["review "] the slices
    [user_input[5:]] and [user_input[7:]] drop that many bytes. *)
Context (str_strip str_lower : string -> string).

Definition run_single (client : Client) (fs : FileSystem)
  (file_path code : option string) : M unit :=
  match given file_path with
  | Some file_path =>
      result ← review_file client fs file_path;
      print result
  | None =>
      match given code with
      | Some code =>
          result ← review_code_default client code;
          print result
      | None =>
          print "❌ Provide --file or --code for single-shot mode.";;
          raise (BaseException "1")
      end
  end.

(** One turn of the [while True] loop, from the line [input] returned on;
    [true] goes round again, [false] is [break]. *)
Definition interactive_turn (t : Turn) : M bool :=
  let user_input := str_strip (typed t) in
  if negb (Str.truthy user_input) then mret true
  else
    let lower := str_lower user_input in
    if String.eqb lower "exit" || String.eqb lower "quit" then
      print "👋 Goodbye!";;
      mret false
    else if String.eqb lower "clear" then
      clear_session;;
      mret true
    else if String.eqb lower "explain" then
      reply ← explain_last (turn_client t);
      print (agent_says reply);;
      mret true
    else if String.prefix "file " lower then
      let path := str_strip (Str.drop 5 user_input) in
      reply ← review_file (turn_client t) (turn_fs t) path;
      print (agent_says reply);;
      mret true
    else if String.prefix "review " lower then
      let code := str_strip (Str.drop 7 user_input) in
      reply ← review_code_default (turn_client t) code;
      print (agent_says reply);;
      mret true
    else
      reply ← chat (turn_client t) user_input;
      print (agent_says reply);;
      mret true.

(** The loop; the console at its end is [input] raising [EOFError] or
    [KeyboardInterrupt]. *)
Fixpoint interactive_loop (console : list Turn) : M unit :=
  match console with
  | [] => print (Str.nl +:+ "👋 Goodbye!")
  | t :: console' =>
      again ← interactive_turn t;
      if again : bool then interactive_loop console' else mret tt
  end.

Definition run_interactive (console : list Turn) : M unit :=
  print WELCOME_BANNER;;
  interactive_loop console.

(** [main] from [agent = CodeReviewAgent()] on.  [open_write] is
    [open(path, "w")]: the exception it raises, if it does. *)
Definition main_with_agent (client : Client) (fs : FileSystem)
  (open_write : string -> option exn) (console : list Turn) (args : Args)
  : M (option (string * Saved)) :=
  match given (args_file args), given (args_code args) with
  | None, None =>
      run_interactive console;;
      mret None
  | _, _ =>
      run_single client fs (args_file args) (args_code args);;
      match given (args_output args) with
      | Some path =>
          h ← self_history;
          let data := mkSaved (args_file args) (args_code args) (List.tail h) in
          match open_write path with
          | Some e => raise e
          | None =>
              print (Str.nl +:+ "💾 Review saved to " +:+ path);;
              mret (Some (path, data))
          end
      | None => mret None
      end
  end.

Definition main (getenv : string -> option string)
  (openai cannot_print : string -> option exn) (client : Client)
  (fs : FileSystem) (open_write : string -> option exn) (console : list Turn)
  (args : Args) : Outcome :=
  match CodeReviewAgent getenv openai cannot_print with
  | (out, Raise e) => NoAgent out e
  | (out, Return a) =>
      let (r, w) := main_with_agent client fs open_write console args
                      (mkWorld a [] out) in
      Ran r w
  end.

End CommandLine.

(** [strip] and [lower] on ASCII text. *)
Definition ascii_space (a : Ascii.ascii) : bool :=
  let n := Ascii.nat_of_ascii a in
  (n =? 32)%nat || ((9 <=? n)%nat && (n <=? 13)%nat) || ((28 <=? n)%nat && (n <=? 31)%nat).

Fixpoint ascii_lstrip (s : string) : string :=
  match s with
  | String a s' => if ascii_space a then ascii_lstrip s' else s
  | EmptyString => EmptyString
  end.

Definition ascii_strip (s : string) : string :=
  String.rev (ascii_lstrip (String.rev (ascii_lstrip s))).

Definition ascii_lower_char (a : Ascii.ascii) : Ascii.ascii :=
  let n := Ascii.nat_of_ascii a in
  if (65 <=? n)%nat && (n <=? 90)%nat then Ascii.ascii_of_nat (n + 32) else a.

Fixpoint ascii_lower (s : string) : string :=
  match s with
  | String a s' => String (ascii_lower_char a) (ascii_lower s')
  | EmptyString => EmptyString
  end.

(** A line typed to a client that replies, beside one readable file. *)
Definition types (line : string) : Turn :=
  mkTurn line (replying "Pass") (one_file "sample.py" "x = 1").

(** ** Shapes of sessions, histories and requests *)

(** Two states of the process with the same agent and the same requests
    sent; they may differ in what was printed. *)
Definition same_session (w1 w2 : World) : Prop :=
  agent w1 = agent w2 /\ sent w1 = sent w2.

(** A list of messages whose last one is the user message [m]. *)
Definition ends_with_user (m : string) (msgs : list Message) : Prop :=
  exists prior, msgs = prior ++ [mkMessage user m].

(** Every assistant message comes right after a user message. *)
Definition replies_follow_questions (h : list Message) : Prop :=
  forall i msg,
    h !! S i = Some msg -> role msg = assistant ->
    exists question, h !! i = Some (mkMessage user question).

(** A request as [chat] builds them for an agent with this model name. *)
Definition well_formed (model : string) (req : Request) : Prop :=
  req_model req = model
  /\ req_temperature req = (3 # 10)%Q
  /\ req_max_tokens req = 2048%Z
  /\ one_system_message (req_messages req)
  /\ exists m, ends_with_user m (req_messages req).

(** One exchange with the client took [w] to [w']: one request sent, holding
    the history and the new user message [m]; that message, and the reply if
    there was one, appended to the history; the model name kept. *)
Definition exchange (m : string) (w w' : World) : Prop :=
  sent w' = sent w ++ [chat_request (model (agent w))
                                    (history (agent w) ++ [mkMessage user m])]
  /\ model (agent w') = model (agent w)
  /\ (history (agent w') = history (agent w) ++ [mkMessage user m]
      \/ exists reply,
           history (agent w')
             = history (agent w) ++ [mkMessage user m; mkMessage assistant reply]).

(** Operations one after the other, each with its collaborators; one that
    raises does not stop the next, as for a caller that catches. *)
Fixpoint run_all (steps : list (Client * FileSystem * Op)) (w : World)
  : list (result (option string)) * World :=
  match steps with
  | [] => ([], w)
  | (client, fs, op) :: steps' =>
      let (r, w') := run client fs op w in
      let (rs, w'') := run_all steps' w' in
      (r :: rs, w'')
  end.

(** A client that answers with no choice at all. *)
Definition silent : Client := fun _ => Return (mkResponse []).

(** [c in s] for a one-character [c]. *)
Fixpoint has_char (c : Ascii.ascii) (s : string) : bool :=
  match s with
  | EmptyString => false
  | String a s' => Ascii.eqb a c || has_char c s'
  end.

(** A single-shot run: [--file sample.py --output out.json] with an API key
    in the environment, and the state it ends in. *)
Definition sample_env (name : string) : option string :=
  if String.eqb name "OPENAI_API_KEY" then Some "sk-test" else None.

(** The environment of the fixture of [test_agent.py]: a [GITHUB_TOKEN] and
    no [OPENAI_API_KEY]. *)
Definition github_token_env (name : string) : option string :=
  if String.eqb name "GITHUB_TOKEN" then Some "test-token" else None.

Definition sample_args : Args := mkArgs (Some "sample.py") None (Some "out.json").

Definition sample_run : Outcome :=
  main ascii_strip ascii_lower sample_env (fun _ => None) (fun _ => None)
       (replying "Pass") (one_file "sample.py" "x = 1") (fun _ => None) []
       sample_args.

Definition sample_run_world : World :=
  match sample_run with
  | Ran _ w => w
  | NoAgent _ _ => fresh
  end.

(** * Properties *)

(** ** Paths and the new agent *)

Lemma take_drop (n : nat) (s : string) : Str.take n s +:+ Str.drop n s = s.
Proof.
  revert s. induction n as [|n IH]; intros [|a s]; try reflexivity.
  change (String a (Str.take n s +:+ Str.drop n s) = String a s).
  by rewrite IH.
Qed.

Lemma append_empty (s : string) : s +:+ "" = s.
Proof.
  induction s as [|a s IH]; [reflexivity|].
  change (String a (s +:+ "") = String a s). by rewrite IH.
Qed.

Lemma skip_leading_dots_concat (n : nat) (p : string) (i dot : Z) :
  fst (OsPath.skip_leading_dots n p i dot) +:+ snd (OsPath.skip_leading_dots n p i dot) = p.
Proof.
  revert i. induction n as [|n IH]; intros i; cbn.
  - apply append_empty.
  - destruct (negb _); [apply take_drop | apply IH].
Qed.

(** [root + ext == path], as the documentation of [os.path.splitext] has it. *)
Lemma splitext_concat (p : string) :
  fst (OsPath.splitext p) +:+ snd (OsPath.splitext p) = p.
Proof.
  unfold OsPath.splitext. destruct (_ <? _)%Z.
  - apply skip_leading_dots_concat.
  - apply append_empty.
Qed.

Example splitext_examples :
  map OsPath.splitext ["agent.py"; "/srv/app.d/run"; ".bashrc"; "a/.b.c"; "x.tar.gz"; "..."]
  = [("agent", ".py"); ("/srv/app.d/run", ""); (".bashrc", ""); ("a/.b", ".c");
     ("x.tar", ".gz"); ("...", "")].
Proof. reflexivity. Qed.

(** A constructor that returns gives an agent whose history is the system
    message alone and whose [last_code] is unset. *)
Lemma CodeReviewAgent_initial
  (getenv : string -> option string) (openai cannot_print : string -> option exn)
  (out : list string) (a : Agent) :
  CodeReviewAgent getenv openai cannot_print = (out, Return a) ->
  a = new_agent (default "gpt-4" (getenv "OPENAI_MODEL"))
  /\ history a = [system_message]
  /\ length (history a) = 1
  /\ last_code a = None
  /\ model a = default "gpt-4" (getenv "OPENAI_MODEL").
Proof.
  unfold CodeReviewAgent, build_client.
  destruct (getenv "OPENAI_API_KEY") as [[|c key]|];
    repeat (match goal with
            | |- context [match ?f ?x with Some _ => _ | None => _ end] =>
                destruct (f x)
            end);
    intros H; inversion H; subst. repeat split.
Qed.

(** ** What each method computes *)

Section Equations.

Context (client : Client) (fs : FileSystem).

Lemma chat_unfold (m : string) (w : World) :
  chat client m w =
  match client (request_for m w) with
  | Return response =>
      match choices response with
      | reply :: _ => (Return reply, answered m reply w)
      | [] => (Raise (IndexError "list index out of range"), unanswered m w)
      end
  | Raise e => (Raise e, unanswered m w)
  end.
Proof.
  unfold chat, mbind, M_bind, history_append, self_model, self_history,
    completions_create, first_choice, request_for, asked; cbn.
  destruct (client _) as [[[|reply rest]]|e]; reflexivity.
Qed.

Lemma review_code_unfold (code language : string) (w : World) :
  review_code client code language w =
  chat client (review_prompt code language)
       (mkWorld (mkAgent (model (agent w)) (history (agent w)) (Some code))
                (sent w) (stdout w)).
Proof. reflexivity. Qed.

Lemma explain_last_unfold (w : World) :
  explain_last client w =
  match last_code (agent w) with
  | Some (String _ _) => chat client explain_prompt w
  | _ => (Return no_code_reply, w)
  end.
Proof.
  unfold explain_last, mbind, M_bind, self_last_code; cbn.
  destruct (last_code (agent w)) as [[|a s]|]; reflexivity.
Qed.

Lemma review_file_unfold (p : string) (w : World) :
  review_file client fs p w =
  match fs p with
  | Contents code =>
      let line := "📂 Reviewing file: " +:+ p +:+ " (" +:+ language_of p +:+ ")" +:+ Str.nl in
      let w1 := mkWorld (agent w) (sent w) (stdout w ++ [line]) in
      match review_code client code (language_of p) w1 with
      | (Return reply, w') => (Return reply, w')
      | (Raise e, w') =>
          if is_FileNotFoundError e then (Return ("❌ File not found: " +:+ p), w')
          else if is_Exception e then (Return ("❌ Error reading file: " +:+ str e), w')
          else (Raise e, w')
      end
  | NotFound _ => (Return ("❌ File not found: " +:+ p), w)
  | Unreadable msg => (Return ("❌ Error reading file: " +:+ msg), w)
  end.
Proof.
  unfold review_file, try_except, open_read, mbind, M_bind.
  destruct (fs p) as [code|msg|msg]; cbn; try reflexivity.
  destruct (review_code _ _ _ _) as [[reply|e] w']; [reflexivity|].
  destruct e; reflexivity.
Qed.

End Equations.

(** ** [chat] *)

Ltac chat_cases client :=
  rewrite chat_unfold;
  let reply := fresh "reply" in
  let rest := fresh "rest" in
  let e := fresh "e" in
  let Hclient := fresh "Hclient" in
  destruct (client _) as [[[|reply rest]]|e] eqn:Hclient; cbn.

Lemma answered_history (m reply : string) (w : World) :
  history (agent (answered m reply w))
    = history (agent w) ++ [mkMessage user m; mkMessage assistant reply].
Proof. unfold answered, asked; cbn. by rewrite <- app_assoc. Qed.

Lemma answered_length (m reply : string) (w : World) :
  length (history (agent (answered m reply w))) = length (history (agent w)) + 2.
Proof. rewrite answered_history, length_app. reflexivity. Qed.

(** A call that returns [reply] got it as the first choice of the client's
    answer, and leaves the state [answered]. *)
Lemma chat_returns (client : Client) (m reply : string) (w w' : World) :
  chat client m w = (Return reply, w') ->
  w' = answered m reply w
  /\ exists response,
       client (request_for m w) = Return response
       /\ head (choices response) = Some reply.
Proof.
  rewrite chat_unfold.
  destruct (client (request_for m w)) as [[[|r rest]]|e]; cbn;
    intros H; inversion H; subst.
  split; [reflexivity|]. eexists; split; reflexivity.
Qed.

(** C1: a call [chat(m)] that returns has appended to the history the user
    message [m] and then the assistant message holding the reply, nothing
    else, so the history is two messages longer; the value returned is the
    content of that assistant message, which is the first choice of what the
    client answered; and the client was sent one request, whose messages are
    the history with the new user message at its end, with the agent's model
    name, the temperature 0.3 and the limit of 2048 tokens. *)
Theorem chat_appends_user_then_assistant
  (client : Client) (m reply : string) (w w' : World) :
  chat client m w = (Return reply, w') ->
  history (agent w')
    = history (agent w) ++ [mkMessage user m; mkMessage assistant reply]
  /\ length (history (agent w')) = length (history (agent w)) + 2
  /\ (exists req response,
        sent w' = sent w ++ [req]
        /\ req_model req = model (agent w)
        /\ req_messages req = history (agent w) ++ [mkMessage user m]
        /\ req_temperature req = (3 # 10)%Q
        /\ req_max_tokens req = 2048%Z
        /\ client req = Return response
        /\ head (choices response) = Some reply)
  /\ last_code (agent w') = last_code (agent w).
Proof.
  intros Hchat. apply chat_returns in Hchat as [-> (response & Hclient & Hreply)].
  split; [apply answered_history|].
  split; [apply answered_length|].
  split; [|reflexivity].
  exists (request_for m w), response.
  split; [reflexivity|].
  repeat split; assumption.
Qed.

Lemma chat_appends_user_then_assistant_witness :
  history (agent (snd (chat (replying "A data race.") "What is a race condition?" fresh)))
    = [system_message;
       mkMessage user "What is a race condition?";
       mkMessage assistant "A data race."]
  /\ sent (snd (chat (replying "A data race.") "What is a race condition?" fresh))
     = [mkRequest "gpt-4"
          [system_message; mkMessage user "What is a race condition?"]
          (3 # 10)%Q 2048%Z].
Proof.
  destruct (chat_appends_user_then_assistant
              (replying "A data race.") "What is a race condition?" "A data race."
              fresh (snd (chat (replying "A data race.") "What is a race condition?" fresh))
              eq_refl)
    as (Hhistory & _ & (req & response & Hsent & Hmodel & Hmessages & Htemp & Hmax & _) & _).
  split; [exact Hhistory|].
  rewrite Hsent. destruct req as [req_model req_messages req_temperature req_max_tokens].
  cbn in Hmodel, Hmessages, Htemp, Hmax. subst. reflexivity.
Defined.

(** C9: when the client raises on the request of [chat(m)], [chat] raises the
    same exception and leaves the history as it was with the user message [m]
    added at its end: no assistant message is appended and the user turn is
    not taken back.  The request was sent once. *)
Theorem chat_failure_keeps_user_turn
  (client : Client) (m : string) (w : World) (e : exn) :
  client (chat_request (model (agent w)) (history (agent w) ++ [mkMessage user m]))
    = Raise e ->
  fst (chat client m w) = Raise e
  /\ history (agent (snd (chat client m w)))
       = history (agent w) ++ [mkMessage user m]
  /\ sent (snd (chat client m w))
       = sent w ++ [chat_request (model (agent w))
                                 (history (agent w) ++ [mkMessage user m])].
Proof.
  intros Hraise. rewrite chat_unfold.
  unfold request_for, asked. rewrite Hraise. cbn. auto.
Qed.

Lemma chat_failure_keeps_user_turn_witness :
  fst (chat (failing connection_error) "hello" fresh) = Raise connection_error
  /\ history (agent (snd (chat (failing connection_error) "hello" fresh)))
       = [system_message; mkMessage user "hello"].
Proof.
  destruct (chat_failure_keeps_user_turn
              (failing connection_error) "hello" fresh connection_error eq_refl)
    as (Hraise & Hhistory & _).
  split; [exact Hraise | exact Hhistory].
Defined.

(** A collaborator failure leaves [chat] by the way it came: the exception
    the client raised is the one [chat] raises. *)
Lemma chat_propagates (client : Client) (m : string) (w : World) (e : exn) :
  client (request_for m w) = Raise e -> fst (chat client m w) = Raise e.
Proof. intros Hraise. rewrite chat_unfold, Hraise. reflexivity. Qed.

(** Whatever happens, [chat] sends one request, appends one or two messages,
    none of them a system message, and touches neither [last_code] nor the
    model name nor the output. *)
Lemma chat_frame (client : Client) (m : string) (w : World) :
  let w' := snd (chat client m w) in
  sent w' = sent w ++ [request_for m w]
  /\ (exists suffix,
        history (agent w') = history (agent w) ++ suffix
        /\ Forall (fun msg => role msg <> system) suffix)
  /\ last_code (agent w') = last_code (agent w)
  /\ model (agent w') = model (agent w)
  /\ stdout w' = stdout w.
Proof.
  chat_cases client; unfold answered, unanswered, asked; cbn;
    repeat split; try reflexivity.
  - exists [mkMessage user m]. split; [reflexivity|].
    repeat constructor; discriminate.
  - exists [mkMessage user m; mkMessage assistant reply].
    split; [by rewrite <- app_assoc|]. repeat constructor; discriminate.
  - exists [mkMessage user m]. split; [reflexivity|].
    repeat constructor; discriminate.
Qed.

(** ** [review_code] *)

(** C7: [review_code(c, lang)] leaves [last_code] equal to [c], whatever
    [lang] is and whether the call then returns or raises, since the
    assignment comes before the delegation to [chat]; and when the call
    returns, the history is two messages longer. *)
Theorem review_code_sets_last_code
  (client : Client) (code language : string) (w : World) :
  last_code (agent (snd (review_code client code language w))) = Some code
  /\ (forall reply,
        fst (review_code client code language w) = Return reply ->
        length (history (agent (snd (review_code client code language w))))
          = length (history (agent w)) + 2).
Proof.
  rewrite review_code_unfold. split.
  - pose proof (chat_frame client (review_prompt code language)
                  (mkWorld (mkAgent (model (agent w)) (history (agent w)) (Some code))
                           (sent w) (stdout w))) as (_ & _ & Hcode & _).
    exact Hcode.
  - intros reply Hreturn.
    destruct (chat client _ _) as [r w'] eqn:Hchat. cbn in Hreturn; subst r.
    apply chat_returns in Hchat as [Hw' _]. cbn. rewrite Hw'.
    exact (answered_length _ _ _).
Qed.

Lemma review_code_sets_last_code_witness :
  last_code (agent after_review) = Some "x = 1/0"
  /\ length (history (agent after_review)) = 3.
Proof.
  destruct (review_code_sets_last_code
              (replying "Critical Issues") "x = 1/0" "auto-detect" fresh)
    as [Hcode Hlength].
  split; [exact Hcode | exact (Hlength "Critical Issues" eq_refl)].
Defined.

Lemma review_code_propagates
  (client : Client) (code language : string) (w : World) (e : exn) :
  (forall req, client req = Raise e) ->
  fst (review_code client code language w) = Raise e.
Proof.
  intros Hraise. rewrite review_code_unfold. apply chat_propagates, Hraise.
Qed.

(** ** [clear_session] *)

(** C8: from any state, [clear_session] leaves a history of exactly one
    message, the system message with the fixed instruction text, as in a new
    agent, and leaves [last_code] unset. *)
Theorem clear_session_resets (w : World) :
  fst (clear_session w) = Return tt
  /\ history (agent (snd (clear_session w))) = [mkMessage system SYSTEM_PROMPT]
  /\ last_code (agent (snd (clear_session w))) = None
  /\ agent (snd (clear_session w)) = new_agent (model (agent w)).
Proof. repeat split. Qed.

(** ** [explain_last] *)

(** C10: with [last_code] unset, [explain_last] returns the fixed text saying
    that no code has been reviewed yet and leaves the whole state as it was:
    history, [last_code], and the requests sent to the client. *)
Theorem explain_last_without_code (client : Client) (w : World) :
  last_code (agent w) = None ->
  explain_last client w = (Return no_code_reply, w)
  /\ Str.contains "No code has been reviewed yet" no_code_reply = true.
Proof.
  intros Hnone. rewrite explain_last_unfold, Hnone. split; reflexivity.
Qed.

Lemma explain_last_without_code_witness :
  explain_last (replying "It adds two numbers.") fresh = (Return no_code_reply, fresh)
  /\ Str.contains "No code has been reviewed yet" no_code_reply = true.
Proof.
  apply (explain_last_without_code (replying "It adds two numbers.") fresh).
  reflexivity.
Defined.

(** With a non-empty [last_code], [explain_last] is [chat] on the fixed
    follow-up text. *)
Lemma explain_last_delegates (client : Client) (w : World) (code : string) :
  last_code (agent w) = Some code -> code <> "" ->
  explain_last client w = chat client explain_prompt w.
Proof.
  intros Hcode Hne. rewrite explain_last_unfold, Hcode.
  destruct code; [contradiction | reflexivity].
Qed.

Lemma explain_last_propagates (client : Client) (w : World) (code : string) (e : exn) :
  last_code (agent w) = Some code -> code <> "" ->
  (forall req, client req = Raise e) ->
  fst (explain_last client w) = Raise e.
Proof.
  intros Hcode Hne Hraise. rewrite (explain_last_delegates _ _ _ Hcode Hne).
  apply chat_propagates, Hraise.
Qed.

(** C3, as the code has it: with [last_code] set to a non-empty text,
    [explain_last] is one call of [chat] on the fixed follow-up instruction,
    a text that is the same whatever [last_code] holds; it sends the client
    one request; when it returns, the history has grown by that user message
    and the reply, two messages; and [last_code] is as it was. *)
Theorem explain_last_with_code (client : Client) (w : World) (code : string) :
  last_code (agent w) = Some code -> code <> "" ->
  explain_last client w = chat client explain_prompt w
  /\ sent (snd (explain_last client w))
       = sent w ++ [chat_request (model (agent w))
                                 (history (agent w) ++ [mkMessage user explain_prompt])]
  /\ (forall reply,
        fst (explain_last client w) = Return reply ->
        history (agent (snd (explain_last client w)))
          = history (agent w)
              ++ [mkMessage user explain_prompt; mkMessage assistant reply]
        /\ length (history (agent (snd (explain_last client w))))
             = length (history (agent w)) + 2)
  /\ last_code (agent (snd (explain_last client w))) = Some code.
Proof.
  intros Hcode Hne. rewrite (explain_last_delegates _ _ _ Hcode Hne).
  pose proof (chat_frame client explain_prompt w) as (Hsent & _ & Hlast & _).
  split; [reflexivity|].
  split; [exact Hsent|].
  split; [|by rewrite Hlast].
  intros reply Hreturn.
  destruct (chat client explain_prompt w) as [r w'] eqn:Hchat.
  cbn in Hreturn; subst r.
  apply chat_returns in Hchat as [-> _].
  split; [apply answered_history | apply answered_length].
Qed.

Lemma explain_last_with_code_witness :
  length (history (agent (snd (explain_last (replying "It divides by zero.") after_review))))
  = length (history (agent after_review)) + 2.
Proof.
  destruct (explain_last_with_code
              (replying "It divides by zero.") after_review "x = 1/0" eq_refl)
    as (_ & _ & Hreturn & _); [discriminate|].
  destruct (Hreturn "It divides by zero." eq_refl) as [_ Hlength].
  exact Hlength.
Defined.

(** With [last_code] unset or empty, [explain_last] answers by itself. *)
Lemma explain_last_falsy (client : Client) (w : World) :
  from_option Str.truthy false (last_code (agent w)) = false ->
  explain_last client w = (Return no_code_reply, w).
Proof.
  intros Hfalsy. rewrite explain_last_unfold.
  by destruct (last_code (agent w)) as [[|a code]|].
Qed.

(** C3, as stated, fails where [last_code] is set to the empty text, as it is
    after [review_file] on an empty file: [explain_last] then makes no call
    and the history keeps its length. *)
Lemma explain_last_empty_code :
  reachable after_empty_file
  /\ last_code (agent after_empty_file) = Some ""
  /\ explain_last (replying "It does nothing.") after_empty_file
       = (Return no_code_reply, after_empty_file)
  /\ length (history (agent (snd (explain_last (replying "It does nothing.")
                                                after_empty_file))))
       <> length (history (agent after_empty_file)) + 2.
Proof.
  split.
  - exact (reachable_step (replying "Nothing to review.") (one_file "empty.py" "")
             (OpReviewFile "empty.py") fresh (reachable_init "gpt-4" [])).
  - split; [reflexivity|]. split; [reflexivity|].
    intros Hlength. vm_compute in Hlength. discriminate Hlength.
Qed.

(** The follow-up text is fixed, so it holds [last_code] whenever [last_code]
    happens to be one of its own substrings. *)
Example explain_prompt_may_hold_last_code :
  let w := snd (review_code_default (replying "Pass") "code" fresh) in
  last_code (agent w) = Some "code" /\ Str.contains "code" explain_prompt = true.
Proof. split; reflexivity. Qed.

(** When the client fails, the one call leaves a single new message. *)
Example explain_last_failed_call :
  length (history (agent (snd (explain_last (failing connection_error) after_review))))
  = length (history (agent after_review)) + 1.
Proof. reflexivity. Qed.

(** ** [review_file] *)


(** [chat] neither reads nor writes the output. *)
Lemma chat_stdout (client : Client) (m : string) (a : Agent) (s : list Request)
  (out out' : list string) :
  chat client m (mkWorld a s out')
  = (fst (chat client m (mkWorld a s out)),
     mkWorld (agent (snd (chat client m (mkWorld a s out))))
             (sent (snd (chat client m (mkWorld a s out)))) out').
Proof.
  rewrite !chat_unfold. unfold request_for, asked; cbn.
  destruct (client _) as [[[|reply rest]]|e]; reflexivity.
Qed.

(** On a readable file [review_file] runs [review_code] on its contents and
    on the language of its extension, after printing one line; the agent and
    the requests sent are those of [review_code], and the result is that of
    [review_code] passed through the [except] clauses. *)
Lemma review_file_readable
  (client : Client) (fs : FileSystem) (p code : string) (w : World) :
  fs p = Contents code ->
  fst (review_file client fs p w)
    = handled p (fst (review_code client code (language_of p) w))
  /\ agent (snd (review_file client fs p w))
       = agent (snd (review_code client code (language_of p) w))
  /\ sent (snd (review_file client fs p w))
       = sent (snd (review_code client code (language_of p) w)).
Proof.
  intros Hfs. rewrite review_file_unfold, Hfs. cbv zeta.
  rewrite !review_code_unfold. cbn [agent sent stdout].
  rewrite (chat_stdout client _ _ _ (stdout w)).
  destruct (chat client _ (mkWorld _ _ (stdout w))) as [[reply|e] w'];
    cbn; [auto|].
  destruct (is_FileNotFoundError e), (is_Exception e); cbn; auto.
Qed.

(** When [review_code] returns, so does [review_file], with the same value. *)
Lemma review_file_on_reply
  (client : Client) (fs : FileSystem) (p code reply : string) (w : World) :
  fs p = Contents code ->
  fst (review_code client code (language_of p) w) = Return reply ->
  fst (review_file client fs p w) = Return reply
  /\ agent (snd (review_file client fs p w))
       = agent (snd (review_code client code (language_of p) w))
  /\ sent (snd (review_file client fs p w))
       = sent (snd (review_code client code (language_of p) w)).
Proof.
  intros Hfs Hreturn.
  destruct (review_file_readable client fs p code w Hfs) as (Hresult & Hagent & Hsent).
  rewrite Hresult, Hreturn. auto.
Qed.

(** The lookup table and its two defaults. *)
Lemma language_of_known (p label : string) :
  lang_map !! extension p = Some label -> language_of p = label.
Proof. unfold language_of. intros ->. reflexivity. Qed.

Lemma language_of_unknown (p : string) :
  lang_map !! extension p = None -> extension p <> "" ->
  language_of p = extension p.
Proof.
  unfold language_of. intros -> Hne.
  destruct (extension p); [contradiction | reflexivity].
Qed.

Lemma language_of_no_extension (p : string) :
  extension p = "" -> language_of p = "unknown".
Proof. unfold language_of. intros ->. reflexivity. Qed.

Example language_of_examples :
  map language_of ["agent.py"; "src/main.rs"; "notes.txt"; "Makefile"; ".gitignore"; "a."]
  = ["Python"; "Rust"; "txt"; "unknown"; "unknown"; "unknown"].
Proof. reflexivity. Qed.

(** C5: when the path does not name a readable file, [review_file] returns
    (it does not raise) one of its two error texts and leaves the whole state
    as it was: history, [last_code], and the requests sent, so the client is
    not called. *)
Theorem review_file_unreadable
  (client : Client) (fs : FileSystem) (p : string) (w : World) :
  readable fs p = false ->
  exists text,
    review_file client fs p w = (Return text, w)
    /\ (text = "❌ File not found: " +:+ p
        \/ exists msg, text = "❌ Error reading file: " +:+ msg).
Proof.
  unfold readable. intros Hfs. rewrite review_file_unfold.
  destruct (fs p) as [code|msg|msg]; [discriminate| |].
  - eexists; split; [reflexivity|]. by left.
  - eexists; split; [reflexivity|]. right. by exists msg.
Qed.

Lemma review_file_unreadable_witness :
  exists text,
    review_file (replying "Pass") (one_file "sample.py" "x = 1")
                "/nonexistent/path/file.py" fresh
      = (Return text, fresh)
    /\ (text = "❌ File not found: /nonexistent/path/file.py"
        \/ exists msg, text = "❌ Error reading file: " +:+ msg).
Proof.
  apply (review_file_unreadable (replying "Pass") (one_file "sample.py" "x = 1")
           "/nonexistent/path/file.py" fresh).
  reflexivity.
Defined.

(** An exception of the client that derives from [Exception] does not leave
    [review_file]: the second [except] clause turns it into a returned text. *)
Lemma review_file_catches
  (client : Client) (fs : FileSystem) (p code : string) (w : World) (e : exn) :
  fs p = Contents code ->
  (forall req, client req = Raise e) ->
  is_FileNotFoundError e = false -> is_Exception e = true ->
  fst (review_file client fs p w) = Return ("❌ Error reading file: " +:+ str e).
Proof.
  intros Hfs Hraise Hnf Hexc.
  destruct (review_file_readable client fs p code w Hfs) as (Hresult & _).
  rewrite Hresult, (review_code_propagates client _ _ _ e Hraise).
  cbn. by rewrite Hnf, Hexc.
Qed.

(** Only an exception outside [Exception], such as [KeyboardInterrupt],
    leaves [review_file] as an exception. *)
Lemma review_file_reraises
  (client : Client) (fs : FileSystem) (p code : string) (w : World) (e : exn) :
  fs p = Contents code ->
  (forall req, client req = Raise e) ->
  is_Exception e = false ->
  fst (review_file client fs p w) = Raise e.
Proof.
  intros Hfs Hraise Hexc.
  destruct (review_file_readable client fs p code w Hfs) as (Hresult & _).
  rewrite Hresult, (review_code_propagates client _ _ _ e Hraise).
  destruct e; try discriminate. reflexivity.
Qed.

(** C4, where the code departs from it: with a readable file and a client
    whose request fails with a connection error, [review_file] does not raise;
    it returns the text of its file-reading handler.  [chat], [review_code]
    and [explain_last] raise the client's exception on the same client. *)
Theorem review_file_swallows_client_failure :
  fst (review_file (failing connection_error) (one_file "sample.py" "x = 1")
                   "sample.py" fresh)
    = Return "❌ Error reading file: Connection error."
  /\ fst (chat (failing connection_error) "hello" fresh) = Raise connection_error
  /\ fst (review_code (failing connection_error) "x = 1" "Python" fresh)
       = Raise connection_error
  /\ fst (explain_last (failing connection_error) after_review)
       = Raise connection_error.
Proof. repeat split. Qed.

(** C6, where the code departs from it: on a readable file and a client that
    fails, [review_code] on the contents and the mapped language raises while
    [review_file] returns a text; the states they leave agree. *)
Theorem review_file_differs_from_review_code :
  one_file "sample.py" "x = 1" "sample.py" = Contents "x = 1"
  /\ language_of "sample.py" = "Python"
  /\ fst (review_code (failing connection_error) "x = 1" "Python" fresh)
       = Raise connection_error
  /\ fst (review_file (failing connection_error) (one_file "sample.py" "x = 1")
                      "sample.py" fresh)
       = Return "❌ Error reading file: Connection error."
  /\ agent (snd (review_file (failing connection_error) (one_file "sample.py" "x = 1")
                             "sample.py" fresh))
       = agent (snd (review_code (failing connection_error) "x = 1" "Python" fresh)).
Proof. repeat split. Qed.

(** ** The system message *)

Lemma review_code_frame (client : Client) (code language : string) (w : World) :
  exists suffix,
    history (agent (snd (review_code client code language w)))
      = history (agent w) ++ suffix
    /\ Forall (fun msg => role msg <> system) suffix.
Proof.
  rewrite review_code_unfold.
  destruct (chat_frame client (review_prompt code language)
              (mkWorld (mkAgent (model (agent w)) (history (agent w)) (Some code))
                       (sent w) (stdout w))) as (_ & Hsuffix & _).
  exact Hsuffix.
Qed.

Lemma review_file_frame (client : Client) (fs : FileSystem) (p : string) (w : World) :
  exists suffix,
    history (agent (snd (review_file client fs p w))) = history (agent w) ++ suffix
    /\ Forall (fun msg => role msg <> system) suffix.
Proof.
  destruct (fs p) as [code|msg|msg] eqn:Hfs.
  - destruct (review_file_readable client fs p code w Hfs) as (_ & -> & _).
    apply review_code_frame.
  - rewrite review_file_unfold, Hfs. exists []. by rewrite app_nil_r.
  - rewrite review_file_unfold, Hfs. exists []. by rewrite app_nil_r.
Qed.

Lemma explain_last_frame (client : Client) (w : World) :
  exists suffix,
    history (agent (snd (explain_last client w))) = history (agent w) ++ suffix
    /\ Forall (fun msg => role msg <> system) suffix.
Proof.
  rewrite explain_last_unfold.
  destruct (last_code (agent w)) as [[|a code]|];
    try (exists []; by rewrite app_nil_r).
  destruct (chat_frame client explain_prompt w) as (_ & Hsuffix & _).
  exact Hsuffix.
Qed.

(** The state [run] leaves is the state the method leaves. *)
Lemma run_state (client : Client) (fs : FileSystem) (op : Op) (w : World) :
  snd (run client fs op w)
  = match op with
    | OpChat m => snd (chat client m w)
    | OpReviewCode code language => snd (review_code client code language w)
    | OpReviewFile p => snd (review_file client fs p w)
    | OpExplainLast => snd (explain_last client w)
    | OpClear => snd (clear_session w)
    end.
Proof.
  destruct op; unfold run, mbind, M_bind; cbn; try reflexivity.
  - by destruct (chat client user_message w) as [[r|e] w'].
  - by destruct (review_code client code language w) as [[r|e] w'].
  - by destruct (review_file client fs file_path w) as [[r|e] w'].
  - by destruct (explain_last client w) as [[r|e] w'].
Qed.

(** Every operation but [clear] only appends to the history, and what it
    appends holds no system message. *)
Lemma run_appends (client : Client) (fs : FileSystem) (op : Op) (w : World) :
  is_clear op = false ->
  exists suffix,
    history (agent (snd (run client fs op w))) = history (agent w) ++ suffix
    /\ Forall (fun msg => role msg <> system) suffix.
Proof.
  intros Hop. rewrite run_state. destruct op; try discriminate.
  - destruct (chat_frame client user_message w) as (_ & Hsuffix & _).
    exact Hsuffix.
  - apply review_code_frame.
  - apply review_file_frame.
  - apply explain_last_frame.
Qed.

Lemma run_clear (client : Client) (fs : FileSystem) (w : World) :
  history (agent (snd (run client fs OpClear w))) = [system_message].
Proof. reflexivity. Qed.

Lemma reachable_one_system_message (w : World) :
  reachable w -> one_system_message (history (agent w)).
Proof.
  induction 1 as [model out | client fs op w Hreach IH].
  - exists []. split; [reflexivity | constructor].
  - destruct (is_clear op) eqn:Hop.
    + destruct op; try discriminate. rewrite run_clear.
      exists []. split; [reflexivity | constructor].
    + destruct (run_appends client fs op w Hop) as (suffix & -> & Hsuffix).
      destruct IH as (rest & -> & Hrest).
      exists (rest ++ suffix). split; [reflexivity|].
      by apply Forall_app.
Qed.

(** C2: in every state a session reaches from a new agent by [chat],
    [review_code], [review_file], [explain_last] and [clear], whether they
    return or raise, the message at index 0 is the system message with the
    fixed instruction text and no message at another index is a system
    message; every operation but [clear] keeps the history it finds as a
    prefix of the one it leaves, and [clear] leaves the one system message
    again. *)
Theorem system_message_stays_first (w : World) :
  reachable w ->
  history (agent w) !! 0 = Some (mkMessage system SYSTEM_PROMPT)
  /\ (forall i msg, history (agent w) !! i = Some msg -> role msg = system -> i = 0)
  /\ (forall client fs op,
        is_clear op = false ->
        exists suffix,
          history (agent (snd (run client fs op w))) = history (agent w) ++ suffix)
  /\ (forall client fs,
        history (agent (snd (run client fs OpClear w)))
          = [mkMessage system SYSTEM_PROMPT]).
Proof.
  intros Hreach.
  destruct (reachable_one_system_message w Hreach) as (rest & Hhistory & Hrest).
  split; [by rewrite Hhistory|].
  split.
  - intros [|i] msg Hlookup Hrole; [reflexivity|].
    rewrite Hhistory in Hlookup. cbn in Hlookup.
    rewrite Forall_lookup in Hrest. by destruct (Hrest i msg Hlookup).
  - split.
    + intros client fs op Hop.
      destruct (run_appends client fs op w Hop) as (suffix & Hsuffix & _).
      by exists suffix.
    + intros client fs. apply run_clear.
Qed.

Lemma system_message_stays_first_witness :
  history (agent after_review) !! 0 = Some (mkMessage system SYSTEM_PROMPT).
Proof.
  apply (system_message_stays_first after_review).
  exact (reachable_step (replying "Critical Issues") (one_file "sample.py" "x = 1")
           (OpReviewCode "x = 1/0" "auto-detect") fresh (reachable_init "gpt-4" [])).
Defined.

(** ** The scenario of the specification *)

Example scenario :
  last_code (agent after_review) = Some "x = 1/0"
  /\ map role (history (agent after_review)) = [system; user; assistant]
  /\ length (history (agent (snd (clear_session after_review)))) = 1
  /\ last_code (agent (snd (clear_session after_review))) = None.
Proof. repeat split. Qed.

(** * Further properties *)

(** ** What one operation does to a session *)

Lemma chat_state (client : Client) (m : string) (w : World) :
  snd (chat client m w) = unanswered m w
  \/ exists reply, snd (chat client m w) = answered m reply w.
Proof.
  rewrite chat_unfold.
  destruct (client _) as [[[|reply rest]]|e]; cbn; eauto.
Qed.

Lemma chat_exchange (client : Client) (m : string) (w : World) :
  exchange m w (snd (chat client m w))
  /\ last_code (agent (snd (chat client m w))) = last_code (agent w).
Proof.
  unfold exchange.
  destruct (chat_state client m w) as [-> | [reply ->]].
  - repeat split. by left.
  - repeat split. right. exists reply. apply answered_history.
Qed.

Lemma review_code_exchange (client : Client) (code language : string) (w : World) :
  exchange (review_prompt code language) w (snd (review_code client code language w))
  /\ last_code (agent (snd (review_code client code language w))) = Some code.
Proof.
  rewrite review_code_unfold.
  destruct (chat_exchange client (review_prompt code language)
              (mkWorld (mkAgent (model (agent w)) (history (agent w)) (Some code))
                       (sent w) (stdout w))) as [Hexchange Hlast].
  split; [exact Hexchange | exact Hlast].
Qed.

(** An operation leaves the agent as it is, or resets it, or makes one
    exchange, after which [last_code] is as before or is the code of the
    review prompt that was sent. *)
Lemma run_cases (client : Client) (fs : FileSystem) (op : Op) (w : World) :
  let w' := snd (run client fs op w) in
  (agent w' = agent w /\ sent w' = sent w)
  \/ (agent w' = new_agent (model (agent w)) /\ sent w' = sent w)
  \/ exists m,
       exchange m w w'
       /\ (last_code (agent w') = last_code (agent w)
           \/ exists code language,
                last_code (agent w') = Some code /\ m = review_prompt code language).
Proof.
  cbv zeta. rewrite run_state.
  destruct op as [m|code language|p| |].
  - right; right. exists m.
    destruct (chat_exchange client m w) as [Hexchange Hlast]. auto.
  - right; right. exists (review_prompt code language).
    destruct (review_code_exchange client code language w) as [Hexchange Hlast].
    split; [exact Hexchange|]. right. eauto.
  - destruct (fs p) as [code|msg|msg] eqn:Hfs.
    + right; right. exists (review_prompt code (language_of p)).
      destruct (review_code_exchange client code (language_of p) w)
        as [Hexchange Hlast].
      destruct (review_file_readable client fs p code w Hfs) as (_ & Hagent & Hsent).
      unfold exchange in *. rewrite Hagent, Hsent.
      split; [exact Hexchange|]. right. eauto.
    + left. rewrite review_file_unfold, Hfs. by split.
    + left. rewrite review_file_unfold, Hfs. by split.
  - rewrite explain_last_unfold.
    destruct (last_code (agent w)) as [[|a code]|] eqn:Hcode;
      try (left; by split).
    right; right. exists explain_prompt.
    destruct (chat_exchange client explain_prompt w) as [Hexchange Hlast].
    split; [exact Hexchange|]. left. by rewrite Hlast.
  - right; left. by split.
Qed.

(** ** What holds of every session *)

Ltac after_review_is_reachable :=
  exact (reachable_step (replying "Critical Issues") (one_file "sample.py" "x = 1")
           (OpReviewCode "x = 1/0" "auto-detect") fresh (reachable_init "gpt-4" [])).

Lemma one_system_message_snoc (h : list Message) (m : string) :
  one_system_message h -> one_system_message (h ++ [mkMessage user m]).
Proof.
  intros (rest & -> & Hrest). exists (rest ++ [mkMessage user m]).
  split; [reflexivity|]. apply Forall_app. split; [exact Hrest|].
  repeat constructor. discriminate.
Qed.

Lemma reachable_model (client : Client) (fs : FileSystem) (op : Op) (w : World) :
  model (agent (snd (run client fs op w))) = model (agent w).
Proof.
  destruct (run_cases client fs op w) as [[-> _] | [[-> _] | (m & H & _)]];
    try reflexivity.
  by destruct H as (_ & Hmodel & _).
Qed.

(** X3: every request a session has sent carries the agent's model name, the
    temperature 0.3 and the limit of 2048 tokens, and its messages start with
    the system message, hold no other system message and end with a user
    message. *)
Theorem sent_requests_well_formed (w : World) :
  reachable w -> Forall (well_formed (model (agent w))) (sent w).
Proof.
  induction 1 as [model out | client fs op w Hreach IH]; [constructor|].
  rewrite reachable_model.
  destruct (run_cases client fs op w) as [[_ ->] | [[_ ->] | (m & H & _)]];
    try exact IH.
  destruct H as (-> & _ & _). apply Forall_app. split; [exact IH|].
  constructor; [|constructor].
  repeat split.
  - apply one_system_message_snoc, reachable_one_system_message, Hreach.
  - exists m, (history (agent w)). reflexivity.
Qed.

Lemma sent_requests_well_formed_witness :
  Forall (well_formed "gpt-4") (sent after_review).
Proof.
  apply (sent_requests_well_formed after_review).
  after_review_is_reachable.
Defined.

Lemma replies_follow_questions_user (h : list Message) (m : string) :
  replies_follow_questions h ->
  replies_follow_questions (h ++ [mkMessage user m]).
Proof.
  intros Hh i msg Hlookup Hrole.
  apply lookup_app_Some in Hlookup as [Hlookup | [Hge Hlookup]].
  - destruct (Hh i msg Hlookup Hrole) as [question Hq].
    exists question. by apply lookup_app_l_Some.
  - destruct (S i - length h) as [|k]; [|destruct k; discriminate].
    inversion Hlookup; subst. discriminate.
Qed.

Lemma replies_follow_questions_exchange (h : list Message) (m reply : string) :
  replies_follow_questions h ->
  replies_follow_questions (h ++ [mkMessage user m; mkMessage assistant reply]).
Proof.
  intros Hh i msg Hlookup Hrole.
  apply lookup_app_Some in Hlookup as [Hlookup | [Hge Hlookup]].
  - destruct (Hh i msg Hlookup Hrole) as [question Hq].
    exists question. by apply lookup_app_l_Some.
  - destruct (S i - length h) as [|[|k]] eqn:Hk.
    + inversion Hlookup; subst. discriminate.
    + exists m. assert (i = length h) as -> by lia.
      rewrite lookup_app_r by lia. by rewrite Nat.sub_diag.
    + destruct k; discriminate.
Qed.

(** X4: in every state a session reaches, each assistant message of the
    history comes right after a user message: no reply without its question,
    no two replies in a row. *)
Theorem history_replies_follow_questions (w : World) :
  reachable w -> replies_follow_questions (history (agent w)).
Proof.
  induction 1 as [model out | client fs op w Hreach IH].
  - intros [|i] msg Hlookup; discriminate.
  - destruct (run_cases client fs op w) as [[-> _] | [[-> _] | (m & H & _)]].
    + exact IH.
    + intros [|i] msg Hlookup; discriminate.
    + destruct H as (_ & _ & [-> | [reply ->]]).
      * by apply replies_follow_questions_user.
      * by apply replies_follow_questions_exchange.
Qed.

Lemma history_replies_follow_questions_witness :
  replies_follow_questions (history (agent after_review)).
Proof.
  apply (history_replies_follow_questions after_review).
  after_review_is_reachable.
Defined.

(** X5: whenever [last_code] holds a text, the session has sent the client a
    request that ends with the review prompt of that text. *)
Theorem last_code_was_sent (w : World) (code : string) :
  reachable w ->
  last_code (agent w) = Some code ->
  exists req language,
    req ∈ sent w
    /\ ends_with_user (review_prompt code language) (req_messages req).
Proof.
  intros Hreach. revert code.
  induction Hreach as [model out | client fs op w Hreach IH]; intros code;
    [discriminate|].
  destruct (run_cases client fs op w) as [[-> ->] | [[-> _] | (m & H & Hlast)]].
  - apply IH.
  - discriminate.
  - destruct H as (-> & _ & _).
    destruct Hlast as [-> | (code' & language & -> & ->)]; intros Hcode.
    + destruct (IH code Hcode) as (req & language & Hin & Hends).
      exists req, language. split; [|exact Hends].
      apply elem_of_app. by left.
    + inversion Hcode; subst code'.
      eexists; exists language. split.
      * apply elem_of_app. right. apply list_elem_of_singleton. reflexivity.
      * exists (history (agent w)). reflexivity.
Qed.

Lemma last_code_was_sent_witness :
  exists req language,
    req ∈ sent after_review
    /\ ends_with_user (review_prompt "x = 1/0" language) (req_messages req).
Proof.
  apply (last_code_was_sent after_review "x = 1/0");
    [after_review_is_reachable | reflexivity].
Defined.

(** X6: every user message in the history of a session was sent to the
    client: some request of the session ends with it. *)
Theorem user_messages_were_sent (w : World) (m : string) :
  reachable w ->
  mkMessage user m ∈ history (agent w) ->
  exists req, req ∈ sent w /\ ends_with_user m (req_messages req).
Proof.
  induction 1 as [model out | client fs op w Hreach IH]; intros Hin.
  - apply list_elem_of_singleton in Hin. discriminate.
  - destruct (run_cases client fs op w) as [[Ha Hs] | [[Ha _] | (m' & H & _)]].
    + rewrite Ha in Hin. rewrite Hs. by apply IH.
    + rewrite Ha in Hin. apply list_elem_of_singleton in Hin. discriminate.
    + destruct H as (-> & _ & Hhistory).
      assert (Hcases : mkMessage user m ∈ history (agent w) \/ m = m').
      { destruct Hhistory as [Hh | [reply Hh]]; rewrite Hh in Hin;
          apply elem_of_app in Hin as [Hin | Hin]; auto;
          repeat (apply elem_of_cons in Hin as [Hin | Hin];
                  [inversion Hin; auto|]);
          by apply elem_of_nil in Hin. }
      destruct Hcases as [Hold | ->].
      * destruct (IH Hold) as (req & Hreq & Hends). exists req.
        split; [|exact Hends]. apply elem_of_app. by left.
      * eexists. split.
        -- apply elem_of_app. right. apply list_elem_of_singleton. reflexivity.
        -- exists (history (agent w)). reflexivity.
Qed.

Lemma user_messages_were_sent_witness :
  exists req,
    req ∈ sent after_review
    /\ ends_with_user (review_prompt "x = 1/0" "auto-detect") (req_messages req).
Proof.
  apply (user_messages_were_sent after_review (review_prompt "x = 1/0" "auto-detect"));
    [after_review_is_reachable|].
  apply list_elem_of_lookup. exists 1. reflexivity.
Defined.

(** ** Edges and compositions of the methods *)

(** X2: when the client answers with an empty list of choices, [chat] raises
    [IndexError]; the request was sent once and the user message stays at the
    end of the history, with no reply after it. *)
Theorem chat_without_choices (client : Client) (m : string) (w : World) :
  client (chat_request (model (agent w)) (history (agent w) ++ [mkMessage user m]))
    = Return (mkResponse []) ->
  fst (chat client m w) = Raise (IndexError "list index out of range")
  /\ history (agent (snd (chat client m w))) = history (agent w) ++ [mkMessage user m]
  /\ sent (snd (chat client m w))
       = sent w ++ [chat_request (model (agent w))
                                 (history (agent w) ++ [mkMessage user m])].
Proof.
  intros Hempty. rewrite chat_unfold. unfold request_for, asked.
  rewrite Hempty. cbn. auto.
Qed.

Lemma chat_without_choices_witness :
  fst (chat silent "hello" fresh) = Raise (IndexError "list index out of range")
  /\ history (agent (snd (chat silent "hello" fresh)))
       = [system_message; mkMessage user "hello"].
Proof.
  destruct (chat_without_choices silent "hello" fresh eq_refl)
    as (Hraise & Hhistory & _).
  split; [exact Hraise | exact Hhistory].
Defined.

(** What an operation returns and does to the agent depends on the agent
    alone, and so do the requests it adds to those sent. *)
Lemma run_agent_only (client : Client) (fs : FileSystem) (op : Op) (w1 w2 : World) :
  agent w1 = agent w2 ->
  fst (run client fs op w1) = fst (run client fs op w2)
  /\ agent (snd (run client fs op w1)) = agent (snd (run client fs op w2))
  /\ exists new,
       sent (snd (run client fs op w1)) = sent w1 ++ new
       /\ sent (snd (run client fs op w2)) = sent w2 ++ new.
Proof.
  destruct w1 as [a s1 o1], w2 as [a' s2 o2]. cbn. intros <-.
  destruct op as [m|code language|p| |]; unfold run, mbind, M_bind.
  - rewrite !chat_unfold. unfold request_for, asked; cbn.
    destruct (client _) as [[[|reply rest]]|e]; cbn; repeat split; eauto.
  - rewrite !review_code_unfold, !chat_unfold. unfold request_for, asked; cbn.
    destruct (client _) as [[[|reply rest]]|e]; cbn; repeat split; eauto.
  - rewrite !review_file_unfold.
    destruct (fs p) as [code|msg|msg]; cbn;
      try (repeat split; exists []; by rewrite !app_nil_r).
    rewrite !review_code_unfold, !chat_unfold. unfold request_for, asked; cbn.
    destruct (client _) as [[[|reply rest]]|e]; cbn; try (repeat split; eauto).
    all: destruct e; cbn; repeat split; eauto.
  - rewrite !explain_last_unfold. cbn.
    destruct (last_code a) as [[|c code]|]; cbn;
      try (repeat split; exists []; by rewrite !app_nil_r).
    rewrite !chat_unfold. unfold request_for, asked; cbn.
    destruct (client _) as [[[|reply rest]]|e]; cbn; repeat split; eauto.
  - cbn. repeat split. exists []. by rewrite !app_nil_r.
Qed.

Lemma run_all_agent_only (steps : list (Client * FileSystem * Op)) (w1 w2 : World) :
  agent w1 = agent w2 ->
  fst (run_all steps w1) = fst (run_all steps w2)
  /\ agent (snd (run_all steps w1)) = agent (snd (run_all steps w2)).
Proof.
  revert w1 w2. induction steps as [|[[client fs] op] steps IH]; intros w1 w2 Hagent.
  - by split.
  - cbn.
    destruct (run_agent_only client fs op w1 w2 Hagent) as (Hresult & Hagent' & _).
    destruct (run client fs op w1) as [r1 w1'], (run client fs op w2) as [r2 w2'].
    cbn in Hresult, Hagent'. subst r2.
    destruct (IH w1' w2' Hagent') as [Hresults Hfinal].
    destruct (run_all steps w1') as [rs1 w1''], (run_all steps w2') as [rs2 w2''].
    cbn in *. by subst.
Qed.

(** X8: a cleared session cannot be told from a new one: whatever ran before
    [clear_session], the operations that follow return what they return on a
    new agent with the same model name, with the same collaborators, and
    leave the agent in the same state. *)
Theorem cleared_session_is_new (steps : list (Client * FileSystem * Op)) (w : World) :
  fst (run_all steps (snd (clear_session w)))
    = fst (run_all steps (mkWorld (new_agent (model (agent w))) [] []))
  /\ agent (snd (run_all steps (snd (clear_session w))))
     = agent (snd (run_all steps (mkWorld (new_agent (model (agent w))) [] []))).
Proof. apply run_all_agent_only. reflexivity. Qed.

(** ** Extensions *)

Section Rfind.

Context (c : Ascii.ascii).

Local Open Scope Z_scope.

Lemma append_assoc (s1 s2 s3 : string) : (s1 +:+ s2) +:+ s3 = s1 +:+ (s2 +:+ s3).
Proof.
  induction s1 as [|a s1 IH]; [reflexivity|].
  change (String a ((s1 +:+ s2) +:+ s3) = String a (s1 +:+ (s2 +:+ s3))).
  by rewrite IH.
Qed.

Lemma length_append (s1 s2 : string) :
  String.length (s1 +:+ s2) = (String.length s1 + String.length s2)%nat.
Proof.
  induction s1 as [|a s1 IH]; [reflexivity|].
  change (S (String.length (s1 +:+ s2)) = S (String.length s1 + String.length s2)).
  by rewrite IH.
Qed.

Lemma drop_append (pre s : string) : Str.drop (String.length pre) (pre +:+ s) = s.
Proof. induction pre as [|a pre IH]; [by destruct s | exact IH]. Qed.

Lemma has_char_append (s1 s2 : string) :
  has_char c (s1 +:+ s2) = has_char c s1 || has_char c s2.
Proof.
  induction s1 as [|a s1 IH]; [reflexivity|].
  change (Ascii.eqb a c || has_char c (s1 +:+ s2)
          = Ascii.eqb a c || has_char c s1 || has_char c s2).
  rewrite IH. by destruct (Ascii.eqb a c).
Qed.

Lemma lstrip_absent (s : string) : has_char c s = false -> Str.lstrip c s = s.
Proof.
  destruct s as [|a s]; [reflexivity|]. cbn.
  by destruct (Ascii.eqb a c).
Qed.

Lemma rfind_from_absent (s : string) (i last : Z) :
  has_char c s = false -> Str.rfind_from c s i last = last.
Proof.
  revert i last. induction s as [|a s IH]; intros i last; cbn; [reflexivity|].
  destruct (Ascii.eqb a c); [discriminate|]. cbn. apply IH.
Qed.

Lemma rfind_from_append (s1 s2 : string) (i last : Z) :
  Str.rfind_from c (s1 +:+ s2) i last
  = Str.rfind_from c s2 (i + Z.of_nat (String.length s1)) (Str.rfind_from c s1 i last).
Proof.
  revert i last. induction s1 as [|a s1 IH]; intros i last.
  - cbn. by rewrite Z.add_0_r.
  - change (Str.rfind_from c (s1 +:+ s2) (i + 1) (if Ascii.eqb a c then i else last)
            = Str.rfind_from c s2 (i + Z.of_nat (S (String.length s1)))
                (Str.rfind_from c s1 (i + 1) (if Ascii.eqb a c then i else last))).
    rewrite IH. f_equal. lia.
Qed.

(** [rfind] finds nothing, or the last occurrence. *)
Lemma rfind_from_split (s : string) (i last : Z) :
  (Str.rfind_from c s i last = last /\ has_char c s = false)
  \/ exists pre post,
       s = pre +:+ String c post
       /\ has_char c post = false
       /\ Str.rfind_from c s i last = i + Z.of_nat (String.length pre).
Proof.
  revert i last. induction s as [|a s IH]; intros i last; [by left|].
  cbn [Str.rfind_from has_char].
  destruct (Ascii.eqb_spec a c) as [-> | Hne].
  - right. destruct (IH (i + 1) i) as [[Hk Hno] | (pre & post & -> & Hno & Hk)].
    + exists "", s. rewrite Hk. repeat split; [exact Hno | cbn; lia].
    + exists (String c pre), post. rewrite Hk. repeat split; [exact Hno | cbn; lia].
  - destruct (IH (i + 1) last) as [[Hk Hno] | (pre & post & -> & Hno & Hk)].
    + left. by split.
    + right. exists (String a pre), post. rewrite Hk.
      repeat split; [exact Hno | cbn; lia].
Qed.

End Rfind.

(** Two ways of cutting one text, the second cut further on. *)
Lemma append_overlap (a b : Ascii.ascii) (pre2 pre post post2 : string) :
  pre +:+ String a post = pre2 +:+ String b post2 ->
  (String.length pre2 < String.length pre)%nat ->
  exists mid, post2 = mid +:+ String a post.
Proof.
  revert pre. induction pre2 as [|x pre2 IH]; intros [|y pre] Heq Hlt;
    cbn in Hlt; try lia.
  - inversion Heq. by exists pre.
  - inversion Heq. apply (IH pre); [assumption | lia].
Qed.

Lemma skip_leading_dots_snd (n : nat) (p : string) (i dot : Z) :
  snd (OsPath.skip_leading_dots n p i dot) = ""
  \/ snd (OsPath.skip_leading_dots n p i dot) = Str.slice_from dot p.
Proof.
  revert i. induction n as [|n IH]; intros i; cbn; [by left|].
  destruct (negb _); [by right | apply IH].
Qed.

(** X9: whatever the path, the extension [review_file] looks up holds neither
    a dot nor a slash; so does the label it passes on for an extension that
    is not in the table. *)
Theorem extension_has_no_dot_no_slash (p : string) :
  has_char "." (extension p) = false /\ has_char "/" (extension p) = false.
Proof.
  unfold extension, OsPath.splitext.
  destruct (Z.ltb_spec (Str.rfind "/" p) (Str.rfind "." p)) as [Hlt|_];
    [|by split].
  destruct (skip_leading_dots_snd
              (Z.to_nat (Str.rfind "." p - (Str.rfind "/" p + 1))) p
              (Str.rfind "/" p + 1) (Str.rfind "." p)) as [-> | ->];
    [by split|].
  unfold Str.rfind in *.
  destruct (rfind_from_split "." p 0 (-1))
    as [[Hdot _] | (pre & post & Hp & Hpost & Hdot)].
  - destruct (rfind_from_split "/" p 0 (-1)) as [[Hsep _] | (? & ? & _ & _ & Hsep)];
      lia.
  - rewrite Hdot in *. unfold Str.slice_from.
    replace (Z.to_nat (0 + Z.of_nat (String.length pre))) with (String.length pre)
      by lia.
    subst p. rewrite drop_append.
    change (Str.lstrip "." (String "." post)) with (Str.lstrip "." post).
    rewrite (lstrip_absent _ _ Hpost). split; [exact Hpost|].
    destruct (rfind_from_split "/" (pre +:+ String "." post) 0 (-1))
      as [[_ Hnone] | (pre2 & post2 & Hp2 & Hpost2 & Hsep)].
    + rewrite has_char_append in Hnone.
      apply orb_false_iff in Hnone as [_ Hnone]. cbn in Hnone. exact Hnone.
    + destruct (append_overlap "." "/" pre2 pre post post2 Hp2) as [mid ->]; [lia|].
      rewrite has_char_append in Hpost2.
      apply orb_false_iff in Hpost2 as [_ Hpost2]. cbn in Hpost2. exact Hpost2.
Qed.

(** Over a file name [base] the loop of [splitext] gives up only when the
    name is made of dots. *)
Lemma skip_leading_dots_over (base pre rest : string) (dot : Z) :
  OsPath.skip_leading_dots (String.length base) (pre +:+ base +:+ rest)
    (Z.of_nat (String.length pre)) dot
  = if Str.truthy (Str.lstrip "." base)
    then (Str.slice_to dot (pre +:+ base +:+ rest),
          Str.slice_from dot (pre +:+ base +:+ rest))
    else (pre +:+ base +:+ rest, "").
Proof.
  revert pre. induction base as [|a base IH]; intros pre; [reflexivity|].
  cbn [String.length OsPath.skip_leading_dots Str.lstrip].
  unfold Str.char_at. rewrite Nat2Z.id, drop_append.
  change (Str.take 1 (String a base +:+ rest)) with (String a "").
  destruct (Ascii.eqb_spec a ".") as [-> | Hne].
  - cbn [String.eqb Ascii.eqb Bool.eqb negb].
    replace (pre +:+ String "." base +:+ rest)
      with ((pre +:+ ".") +:+ base +:+ rest)
      by (rewrite append_assoc; reflexivity).
    replace (Z.of_nat (String.length pre) + 1)%Z
      with (Z.of_nat (String.length (pre +:+ ".")))
      by (rewrite length_append; cbn; lia).
    apply IH.
  - assert (String.eqb (String a "") "." = false) as ->.
    { apply String.eqb_neq. intros Heq. inversion Heq. contradiction. }
    reflexivity.
Qed.

(** X10: for a path made of a directory part that is empty or ends with a
    slash, a file name without slash that is not made of dots alone, a dot,
    and an extension without dot or slash, the extension [review_file] looks
    up is that extension; the language is the one the table gives for it. *)
Theorem extension_of_file_name (dir base ext : string) :
  (dir = "" \/ exists d, dir = d +:+ "/") ->
  has_char "/" base = false ->
  Str.lstrip "." base <> "" ->
  has_char "." ext = false ->
  has_char "/" ext = false ->
  extension (dir +:+ base +:+ "." +:+ ext) = ext
  /\ forall label,
       lang_map !! ext = Some label ->
       language_of (dir +:+ base +:+ "." +:+ ext) = label.
Proof.
  intros Hdir Hbase Hdots Hext_dot Hext_sep.
  assert (Hextension : extension (dir +:+ base +:+ "." +:+ ext) = ext).
  { unfold extension, OsPath.splitext, Str.rfind.
    assert (Hdot : Str.rfind_from "." (dir +:+ base +:+ "." +:+ ext) 0 (-1)
                   = Z.of_nat (String.length dir + String.length base)).
    { rewrite <- (append_assoc dir base), rfind_from_append.
      change ("." +:+ ext) with (String "." ext).
      cbn [Str.rfind_from Ascii.eqb Bool.eqb].
      rewrite (rfind_from_absent _ _ _ _ Hext_dot), length_append. lia. }
    assert (Hsep : (Str.rfind_from "/" (dir +:+ base +:+ "." +:+ ext) 0 (-1) + 1
                    = Z.of_nat (String.length dir))%Z).
    { rewrite rfind_from_append, rfind_from_absent.
      - destruct Hdir as [-> | [d ->]]; [reflexivity|].
        rewrite rfind_from_append. cbn. rewrite length_append. cbn. lia.
      - rewrite has_char_append, Hbase. cbn. exact Hext_sep. }
    rewrite Hdot, Hsep.
    destruct (Z.ltb_spec (Str.rfind_from "/" (dir +:+ base +:+ "." +:+ ext) 0 (-1))
                (Z.of_nat (String.length dir + String.length base))) as [_|Hge];
      [|lia].
    replace (Z.to_nat (Z.of_nat (String.length dir + String.length base)
                       - Z.of_nat (String.length dir)))
      with (String.length base) by lia.
    rewrite skip_leading_dots_over.
    destruct (Str.lstrip "." base) as [|a rest] eqn:Hstrip; [contradiction|].
    cbn [Str.truthy snd]. unfold Str.slice_from. rewrite Nat2Z.id.
    rewrite <- append_assoc, <- length_append, drop_append.
    change ("." +:+ ext) with (String "." ext).
    change (Str.lstrip "." (String "." ext)) with (Str.lstrip "." ext).
    by apply lstrip_absent. }
  split; [exact Hextension|].
  intros label Hlabel. apply language_of_known. by rewrite Hextension.
Qed.

Lemma extension_of_file_name_witness :
  extension ("src/" +:+ "agent" +:+ "." +:+ "py") = "py"
  /\ forall label,
       lang_map !! "py" = Some label ->
       language_of ("src/" +:+ "agent" +:+ "." +:+ "py") = label.
Proof.
  apply (extension_of_file_name "src/" "agent" "py");
    [right; by exists "src" | reflexivity | discriminate | reflexivity | reflexivity].
Defined.

(** ** The constructor and the single-shot mode *)

(** X1: the constructor gives an agent exactly when [OPENAI_API_KEY] is set
    to a text that is not empty, [OpenAI(api_key=...)] does not raise on it
    and the line that reports the connection can be printed.  When the key is
    missing or empty the constructor raises and [OpenAI] plays no part: once
    its two messages are printed, what it raises is [SystemExit(1)]. *)
Theorem agent_needs_api_key
  (getenv : string -> option string) (openai cannot_print : string -> option exn) :
  ((exists out a, CodeReviewAgent getenv openai cannot_print = (out, Return a))
   <-> (exists key,
          getenv "OPENAI_API_KEY" = Some key /\ key <> ""
          /\ openai key = None
          /\ cannot_print ("✅ Connected via OpenAI (model: "
                           +:+ default "gpt-4" (getenv "OPENAI_MODEL")
                           +:+ ")" +:+ Str.nl) = None))
  /\ (getenv "OPENAI_API_KEY" = None \/ getenv "OPENAI_API_KEY" = Some "" ->
      (exists out e, CodeReviewAgent getenv openai cannot_print = (out, Raise e))
      /\ (cannot_print "❌ No API credentials found." = None ->
          cannot_print "   Set OPENAI_API_KEY environment variable." = None ->
          CodeReviewAgent getenv openai cannot_print
          = (["❌ No API credentials found.";
              "   Set OPENAI_API_KEY environment variable."],
             Raise (BaseException "1")))).
Proof.
  unfold CodeReviewAgent, build_client. split.
  - destruct (getenv "OPENAI_API_KEY") as [[|c key]|]; split.
    + destruct (cannot_print "❌ No API credentials found.");
        [|destruct (cannot_print "   Set OPENAI_API_KEY environment variable.")];
        intros (out & a & H); discriminate.
    + intros (key & H & Hne & _). by inversion H.
    + destruct (openai (String c key)) as [e|] eqn:Hopenai;
        [intros (out & a & H); discriminate|].
      cbv zeta.
      destruct (cannot_print _) as [e|] eqn:Hprint;
        [intros (out & a & H); discriminate|].
      intros _. exists (String c key).
      split; [reflexivity|]. split; [discriminate|]. by split.
    + intros (key' & H & _ & Hopenai & Hprint). inversion H; subst key'.
      rewrite Hopenai. cbv zeta. rewrite Hprint. by do 2 eexists.
    + destruct (cannot_print "❌ No API credentials found.");
        [|destruct (cannot_print "   Set OPENAI_API_KEY environment variable.")];
        intros (out & a & H); discriminate.
    + intros (key & H & _). discriminate.
  - intros [-> | ->]; (split; [|by intros -> ->]);
      destruct (cannot_print "❌ No API credentials found.");
      try destruct (cannot_print "   Set OPENAI_API_KEY environment variable.");
      by do 2 eexists.
Qed.

Lemma agent_needs_api_key_witness :
  CodeReviewAgent github_token_env (fun _ => None) (fun _ => None)
  = (["❌ No API credentials found.";
      "   Set OPENAI_API_KEY environment variable."],
     Raise (BaseException "1")).
Proof.
  destruct (agent_needs_api_key github_token_env (fun _ => None) (fun _ => None))
    as [_ Hmissing].
  destruct Hmissing as [_ Hexit]; [by left|].
  exact (Hexit eq_refl eq_refl).
Defined.

(** What [run_single] does to the session is what one [review_file] or one
    [review_code] does, or nothing. *)
Lemma run_single_session
  (client : Client) (fs : FileSystem) (file_path code : option string) (w : World) :
  same_session (snd (run_single client fs file_path code w)) w
  \/ exists op,
       same_session (snd (run_single client fs file_path code w))
                    (snd (run client fs op w)).
Proof.
  unfold run_single.
  destruct (given file_path) as [p|].
  - right. exists (OpReviewFile p). rewrite run_state. unfold mbind, M_bind.
    by destruct (review_file client fs p w) as [[r|e] w'].
  - destruct (given code) as [c|].
    + right. exists (OpReviewCode c "auto-detect"). rewrite run_state.
      unfold mbind, M_bind, review_code_default.
      by destruct (review_code client c "auto-detect" w) as [[r|e] w'].
    + left. by split.
Qed.



(** ** The interactive loop *)

Section Loop.

Context (str_strip str_lower : string -> string).

(** What a turn does to the session is what one operation does, or nothing. *)
Lemma interactive_turn_session (t : Turn) (w : World) :
  same_session (snd (interactive_turn str_strip str_lower t w)) w
  \/ exists op,
       same_session (snd (interactive_turn str_strip str_lower t w)) (snd (run (turn_client t) (turn_fs t) op w)).
Proof.
  unfold interactive_turn. cbv zeta.
  destruct (negb _); [left; by split|].
  destruct (_ || _); [left; by split|].
  destruct (String.eqb _ "clear"); [right; exists OpClear; by split|].
  destruct (String.eqb _ "explain").
  { right. exists OpExplainLast. rewrite run_state. unfold mbind, M_bind.
    by destruct (explain_last _ w) as [[r|e] w']. }
  destruct (String.prefix "file " _).
  { right. exists (OpReviewFile (str_strip (Str.drop 5 (str_strip (typed t))))).
    rewrite run_state. unfold mbind, M_bind.
    by destruct (review_file _ _ _ w) as [[r|e] w']. }
  destruct (String.prefix "review " _).
  { right.
    exists (OpReviewCode (str_strip (Str.drop 7 (str_strip (typed t)))) "auto-detect").
    rewrite run_state. unfold mbind, M_bind, review_code_default.
    by destruct (review_code _ _ _ w) as [[r|e] w']. }
  right. exists (OpChat (str_strip (typed t))).
  rewrite run_state. unfold mbind, M_bind.
  by destruct (chat _ _ w) as [[r|e] w'].
Qed.

Lemma loop_cons (t : Turn) (console : list Turn) (w : World) :
  interactive_loop str_strip str_lower (t :: console) w
  = match interactive_turn str_strip str_lower t w with
    | (Return true, w') => interactive_loop str_strip str_lower console w'
    | (Return false, w') => (Return tt, w')
    | (Raise e, w') => (Raise e, w')
    end.
Proof.
  cbn [interactive_loop]. unfold mbind, M_bind.
  by destruct (interactive_turn str_strip str_lower t w) as [[[|]|e] w'].
Qed.

Lemma run_same_session
  (client : Client) (fs : FileSystem) (op : Op) (w1 w2 : World) :
  same_session w1 w2 ->
  same_session (snd (run client fs op w1)) (snd (run client fs op w2)).
Proof.
  intros [Hagent Hsent].
  destruct (run_agent_only client fs op w1 w2 Hagent)
    as (_ & Hagent' & new & Hsent1 & Hsent2).
  split; [exact Hagent'|]. by rewrite Hsent1, Hsent2, Hsent.
Qed.

Lemma loop_session (console : list Turn) (w w0 : World) :
  reachable w0 -> same_session w w0 ->
  exists w1,
    reachable w1
    /\ same_session (snd (interactive_loop str_strip str_lower console w)) w1.
Proof.
  revert w w0. induction console as [|t console IH]; intros w w0 Hreach Hsame.
  - exists w0. split; [exact Hreach|]. exact Hsame.
  - rewrite loop_cons.
    assert (Hturn : exists w1,
               reachable w1
               /\ same_session (snd (interactive_turn str_strip str_lower t w)) w1).
    { destruct (interactive_turn_session t w) as [[Ha Hs] | [op [Ha Hs]]].
      - exists w0. split; [exact Hreach|].
        destruct Hsame as [Ha0 Hs0]. split; congruence.
      - exists (snd (run (turn_client t) (turn_fs t) op w0)).
        split; [by apply reachable_step|].
        destruct (run_same_session (turn_client t) (turn_fs t) op w w0 Hsame)
          as [Ha' Hs'].
        split; congruence. }
    destruct Hturn as (w1 & Hreach1 & Hsame1).
    destruct (interactive_turn str_strip str_lower t w) as [[[|]|e] w'];
      cbn [snd] in *.
    + by apply (IH w' w1).
    + by exists w1.
    + by exists w1.
Qed.

(** X12: whatever is typed and whatever the collaborators do, an interactive
    run that starts in a state of a session ends in one: its agent and the
    requests it has sent are those of a state that the operations [chat],
    [review_code], [review_file], [explain_last] and [clear_session] reach.
    So its history starts with the system message and holds no other. *)
Theorem run_interactive_is_a_session (console : list Turn) (w : World) :
  reachable w ->
  (exists w1,
     reachable w1
     /\ same_session (snd (run_interactive str_strip str_lower console w)) w1)
  /\ one_system_message
       (history (agent (snd (run_interactive str_strip str_lower console w)))).
Proof.
  intros Hreach.
  assert (Hsession : exists w1,
             reachable w1
             /\ same_session
                  (snd (run_interactive str_strip str_lower console w)) w1).
  { unfold run_interactive, mbind, M_bind. cbn.
    apply (loop_session console _ w Hreach). by split. }
  split; [exact Hsession|].
  destruct Hsession as (w1 & Hreach1 & [-> _]).
  by apply reachable_one_system_message.
Qed.

Lemma run_sent_length (client : Client) (fs : FileSystem) (op : Op) (w : World) :
  length (sent (snd (run client fs op w))) <= length (sent w) + 1.
Proof.
  destruct (run_cases client fs op w) as [[_ ->] | [[_ ->] | (m & H & _)]];
    try lia.
  destruct H as (-> & _). rewrite length_app. cbn. lia.
Qed.

Lemma loop_sent_length (console : list Turn) (w : World) :
  length (sent (snd (interactive_loop str_strip str_lower console w)))
  <= length (sent w) + length console.
Proof.
  revert w. induction console as [|t console IH]; intros w; [cbn; lia|].
  rewrite loop_cons.
  assert (Hturn : length (sent (snd (interactive_turn str_strip str_lower t w)))
                  <= length (sent w) + 1).
  { destruct (interactive_turn_session t w) as [[_ ->] | [op [_ ->]]]; [lia|].
    apply run_sent_length. }
  destruct (interactive_turn str_strip str_lower t w) as [[[|]|e] w'];
    cbn [snd length] in *; try lia.
  specialize (IH w'). lia.
Qed.

(** X13: an interactive run sends the client at most one request for each
    line read. *)
Theorem run_interactive_one_request_a_line (console : list Turn) (w : World) :
  length (sent (snd (run_interactive str_strip str_lower console w)))
  <= length (sent w) + length console.
Proof.
  unfold run_interactive, mbind, M_bind. cbn.
  exact (loop_sent_length console
           (mkWorld (agent w) (sent w) (stdout w ++ [WELCOME_BANNER]))).
Qed.

(** X14: the line [exit] or [quit], in any letter case [lower] undoes, ends
    the loop: what the console holds after it is never read. *)
Theorem nothing_read_after_exit (before : list Turn) (t : Turn) (rest : list Turn)
  (w : World) :
  str_strip (typed t) <> "" ->
  str_lower (str_strip (typed t)) = "exit" \/ str_lower (str_strip (typed t)) = "quit" ->
  interactive_loop str_strip str_lower (before ++ t :: rest) w
  = interactive_loop str_strip str_lower (before ++ [t]) w.
Proof.
  intros Hne Hexit.
  assert (Hturn : forall w0,
             interactive_turn str_strip str_lower t w0
             = (Return false, mkWorld (agent w0) (sent w0) (stdout w0 ++ ["👋 Goodbye!"]))).
  { intros w0. unfold interactive_turn. cbv zeta.
    destruct (str_strip (typed t)) as [|c line]; [contradiction|].
    cbn [Str.truthy negb].
    by destruct Hexit as [-> | ->]. }
  revert w. induction before as [|b before IH]; intros w.
  - cbn [app]. by rewrite !loop_cons, Hturn.
  - cbn [app]. rewrite !loop_cons.
    destruct (interactive_turn str_strip str_lower b w) as [[[|]|e] w'];
      [apply IH | reflexivity | reflexivity].
Qed.

(** X15: blank lines count for nothing: a console and the same console with
    the lines that [strip] empties taken out give the same run. *)
Theorem blank_lines_are_skipped (console : list Turn) (w : World) :
  interactive_loop str_strip str_lower console w
  = interactive_loop str_strip str_lower
      (filter (fun t => Str.truthy (str_strip (typed t)) = true) console) w.
Proof.
  revert w. induction console as [|t console IH]; intros w; [reflexivity|].
  rewrite filter_cons. case_decide as Hblank.
  - rewrite !loop_cons.
    destruct (interactive_turn str_strip str_lower t w) as [[[|]|e] w'];
      [apply IH | reflexivity | reflexivity].
  - rewrite loop_cons.
    assert (interactive_turn str_strip str_lower t w = (Return true, w)) as ->.
    { unfold interactive_turn. cbv zeta.
      by destruct (Str.truthy (str_strip (typed t))). }
    apply IH.
Qed.

(** X16: a line of free text whose request fails ends the interactive run
    with the client's exception: the loop has no handler, no farewell is
    printed and the rest of the console is not read; the user message stays
    at the end of the history. *)
Theorem failed_chat_ends_the_loop (t : Turn) (rest : list Turn) (w : World) (e : exn) :
  str_strip (typed t) <> "" ->
  str_lower (str_strip (typed t)) <> "exit" ->
  str_lower (str_strip (typed t)) <> "quit" ->
  str_lower (str_strip (typed t)) <> "clear" ->
  str_lower (str_strip (typed t)) <> "explain" ->
  String.prefix "file " (str_lower (str_strip (typed t))) = false ->
  String.prefix "review " (str_lower (str_strip (typed t))) = false ->
  (forall req, turn_client t req = Raise e) ->
  fst (interactive_loop str_strip str_lower (t :: rest) w) = Raise e
  /\ history (agent (snd (interactive_loop str_strip str_lower (t :: rest) w)))
     = history (agent w) ++ [mkMessage user (str_strip (typed t))]
  /\ stdout (snd (interactive_loop str_strip str_lower (t :: rest) w)) = stdout w.
Proof.
  intros Hne Hexit Hquit Hclear Hexplain Hfile Hreview Hraise.
  rewrite loop_cons. unfold interactive_turn. cbv zeta.
  destruct (str_strip (typed t)) as [|c line] eqn:Hline; [contradiction|].
  cbn [Str.truthy negb].
  apply String.eqb_neq in Hexit, Hquit, Hclear, Hexplain.
  rewrite Hexit, Hquit, Hclear, Hexplain, Hfile, Hreview. cbn [orb].
  unfold mbind, M_bind. rewrite chat_unfold, Hraise. cbn. auto.
Qed.

End Loop.

Lemma run_interactive_is_a_session_witness :
  one_system_message
    (history (agent (snd (run_interactive ascii_strip ascii_lower
                            [types "review x = 1"; types "EXPLAIN"] fresh)))).
Proof.
  apply (run_interactive_is_a_session ascii_strip ascii_lower
           [types "review x = 1"; types "EXPLAIN"] fresh).
  exact (reachable_init "gpt-4" []).
Defined.

Lemma nothing_read_after_exit_witness :
  interactive_loop ascii_strip ascii_lower
    ([types "hello"] ++ types " Quit " :: [types "review x = 1"]) fresh
  = interactive_loop ascii_strip ascii_lower ([types "hello"] ++ [types " Quit "]) fresh.
Proof.
  apply (nothing_read_after_exit ascii_strip ascii_lower
           [types "hello"] (types " Quit ") [types "review x = 1"] fresh);
    [discriminate | right; reflexivity].
Defined.

Lemma failed_chat_ends_the_loop_witness :
  fst (interactive_loop ascii_strip ascii_lower
         [mkTurn "hello" (failing connection_error) (one_file "sample.py" "x = 1");
          types "clear"] fresh)
  = Raise connection_error.
Proof.
  apply (failed_chat_ends_the_loop ascii_strip ascii_lower
           (mkTurn "hello" (failing connection_error) (one_file "sample.py" "x = 1"))
           [types "clear"] fresh connection_error);
    try discriminate; reflexivity.
Defined.

(** ** [main] *)

(** After one operation on a new agent the history is the system message and
    at most one exchange. *)
Lemma first_operation_history
  (client : Client) (fs : FileSystem) (op : Op) (model : string)
  (out : list string) :
  exists rest,
    history (agent (snd (run client fs op (mkWorld (new_agent model) [] out))))
      = system_message :: rest
    /\ Forall (fun msg => role msg <> system) rest
    /\ length rest <= 2.
Proof.
  destruct (run_cases client fs op (mkWorld (new_agent model) [] out))
    as [[-> _] | [[-> _] | (m & H & _)]].
  - exists []. cbn. repeat split; [constructor | lia].
  - exists []. cbn. repeat split; [constructor | lia].
  - destruct H as (_ & _ & [-> | [reply ->]]); cbn.
    + eexists. repeat split; [|cbn; lia]. repeat constructor; discriminate.
    + eexists. repeat split; [|cbn; lia]. repeat constructor; discriminate.
Qed.

(** X17: when [main] writes a review to a file, [--output] named that file
    and [--file] or [--code] was given, so the run was single-shot; the
    history saved is the agent's history without its first message, the
    system message: it holds no system message and at most one exchange. *)
Theorem main_saves_the_exchange
  (str_strip str_lower : string -> string) (getenv : string -> option string)
  (openai cannot_print : string -> option exn)
  (client : Client) (fs : FileSystem) (open_write : string -> option exn)
  (console : list Turn) (args : Args) (path : string) (data : Saved) (w : World) :
  main str_strip str_lower getenv openai cannot_print client fs open_write
       console args
    = Ran (Return (Some (path, data))) w ->
  given (args_output args) = Some path
  /\ (given (args_file args) <> None \/ given (args_code args) <> None)
  /\ data_file data = args_file args
  /\ data_code data = args_code args
  /\ history (agent w) = system_message :: data_history data
  /\ Forall (fun msg => role msg <> system) (data_history data)
  /\ length (data_history data) <= 2.
Proof.
  unfold main.
  destruct (CodeReviewAgent getenv openai cannot_print) as [out [a|e]] eqn:Hagent;
    [|discriminate].
  apply CodeReviewAgent_initial in Hagent as (-> & _).
  set (w0 := mkWorld (new_agent (default "gpt-4" (getenv "OPENAI_MODEL"))) [] out).
  unfold main_with_agent.
  set (single := mbind _ (run_single client fs (args_file args) (args_code args))).
  assert (Hsingle : forall r w1,
    single w0 = (r, w1) ->
    Ran r w1 = Ran (Return (Some (path, data))) w ->
    given (args_output args) = Some path
    /\ data_file data = args_file args
    /\ data_code data = args_code args
    /\ history (agent w) = system_message :: data_history data
    /\ Forall (fun msg => role msg <> system) (data_history data)
    /\ length (data_history data) <= 2).
  { intros r w1. subst single. unfold mbind, M_bind.
    pose proof (run_single_session client fs (args_file args) (args_code args) w0)
      as Hsession.
    destruct (run_single client fs (args_file args) (args_code args) w0)
      as [[[]|e] w2]; [|intros H; inversion H; discriminate].
    cbn [snd] in Hsession.
    assert (Hhistory : exists rest,
               history (agent w2) = system_message :: rest
               /\ Forall (fun msg => role msg <> system) rest
               /\ length rest <= 2).
    { destruct Hsession as [[-> _] | [op [-> _]]].
      - exists []. cbn. repeat split; [constructor | lia].
      - apply first_operation_history. }
    destruct Hhistory as (rest & Hrest & Hroles & Hlength).
    destruct (given (args_output args)) as [path'|];
      [|intros H; inversion H; discriminate].
    unfold self_history. cbn.
    destruct (open_write path') as [e|]; cbn;
      intros H; inversion H; subst; clear H; [discriminate|].
    intros H; inversion H; subst; clear H. cbn.
    rewrite Hrest. cbn. repeat split; assumption. }
  clearbody single.
  destruct (given (args_file args)) as [file|] eqn:Hfile.
  - destruct (single w0) as [r w1] eqn:Hrun. intros Hran.
    destruct (Hsingle r w1 eq_refl Hran) as (H1 & H2 & H3 & H4 & H5 & H6).
    repeat split; auto.
  - destruct (given (args_code args)) as [code|] eqn:Hcode.
    + destruct (single w0) as [r w1] eqn:Hrun. intros Hran.
      destruct (Hsingle r w1 eq_refl Hran) as (H1 & H2 & H3 & H4 & H5 & H6).
      repeat split; auto.
    + unfold mbind, M_bind.
      destruct (run_interactive _ _ _ w0) as [[[]|e] w1];
        intros H; inversion H.
Qed.

Lemma main_saves_the_exchange_witness :
  history (agent sample_run_world)
  = system_message
      :: [mkMessage user (review_prompt "x = 1" "Python"); mkMessage assistant "Pass"].
Proof.
  destruct (main_saves_the_exchange ascii_strip ascii_lower sample_env
              (fun _ => None) (fun _ => None) (replying "Pass")
              (one_file "sample.py" "x = 1") (fun _ => None) [] sample_args
              "out.json"
              (mkSaved (Some "sample.py") None
                 [mkMessage user (review_prompt "x = 1" "Python");
                  mkMessage assistant "Pass"])
              sample_run_world eq_refl)
    as (_ & _ & _ & _ & Hhistory & _).
  exact Hhistory.
Defined.

(** ** The code in the conversation *)

Lemma prefix_append (s t : string) : String.prefix s (s +:+ t) = true.
Proof.
  induction s as [|a s IH]; [by destruct t|].
  change (String.prefix (String a s) (String a (s +:+ t)) = true).
  simpl. destruct (Ascii.ascii_dec a a); [exact IH | contradiction].
Qed.

Lemma contains_unfold (needle s : string) :
  Str.contains needle s
  = String.prefix needle s
    || match s with
       | EmptyString => false
       | String _ s' => Str.contains needle s'
       end.
Proof. by destruct s. Qed.

Lemma contains_append (pre s post : string) :
  Str.contains s (pre +:+ s +:+ post) = true.
Proof.
  induction pre as [|a pre IH].
  - change ("" +:+ s +:+ post) with (s +:+ post).
    by rewrite contains_unfold, prefix_append.
  - change (String a pre +:+ s +:+ post) with (String a (pre +:+ s +:+ post)).
    rewrite contains_unfold, IH. apply orb_true_r.
Qed.

(** The prompt of a review holds the code and the language as they were
    given. *)
Lemma review_prompt_holds (code language : string) :
  Str.contains code (review_prompt code language) = true
  /\ Str.contains language (review_prompt code language) = true.
Proof.
  unfold review_prompt. split.
  - replace ("Please review the following " +:+ language +:+ " code:" +:+ Str.nl
             +:+ Str.nl +:+ "```" +:+ Str.nl +:+ code +:+ Str.nl +:+ "```")
      with (("Please review the following " +:+ language +:+ " code:" +:+ Str.nl
             +:+ Str.nl +:+ "```" +:+ Str.nl) +:+ code +:+ Str.nl +:+ "```")
      by (rewrite !append_assoc; reflexivity).
    apply contains_append.
  - apply contains_append.
Qed.

(** X7: after a [review_code] that returned, on a code that is not empty, the
    request [explain_last] sends holds the history as it was before the
    review, then the user message of the review, whose text contains the
    code, then the reply, then the follow-up question: the code reaches the
    client again through the history. *)
Theorem explain_after_review
  (client client' : Client) (code language reply : string) (w w1 : World) :
  review_code client code language w = (Return reply, w1) ->
  code <> "" ->
  exists req prompt,
    last (sent (snd (explain_last client' w1))) = Some req
    /\ req_messages req
       = history (agent w)
           ++ [mkMessage user prompt;
               mkMessage assistant reply;
               mkMessage user
                 "Can you explain what the last reviewed code does in simple terms?"]
    /\ prompt
       = "Please review the following " +:+ language +:+ " code:" +:+ Str.nl
         +:+ Str.nl +:+ "```" +:+ Str.nl +:+ code +:+ Str.nl +:+ "```"
    /\ Str.contains code prompt = true.
Proof.
  intros Hreview Hne. rewrite review_code_unfold in Hreview.
  apply chat_returns in Hreview as [-> _].
  rewrite (explain_last_delegates client'
             (answered (review_prompt code language) reply
                (mkWorld (mkAgent (model (agent w)) (history (agent w)) (Some code))
                         (sent w) (stdout w)))
             code (eq_refl (Some code)) Hne).
  destruct (chat_frame client' explain_prompt
              (answered (review_prompt code language) reply
                 (mkWorld (mkAgent (model (agent w)) (history (agent w)) (Some code))
                          (sent w) (stdout w)))) as (-> & _).
  eexists. exists (review_prompt code language).
  split; [apply last_snoc|].
  split; [unfold request_for, asked; cbn; rewrite <- !app_assoc; reflexivity|].
  split; [reflexivity|].
  apply review_prompt_holds.
Qed.

Lemma explain_after_review_witness :
  exists req prompt,
    last (sent (snd (explain_last (replying "It divides by zero.") after_review)))
      = Some req
    /\ req_messages req
       = [system_message]
           ++ [mkMessage user prompt;
               mkMessage assistant "Critical Issues";
               mkMessage user
                 "Can you explain what the last reviewed code does in simple terms?"]
    /\ prompt
       = "Please review the following " +:+ "auto-detect" +:+ " code:" +:+ Str.nl
         +:+ Str.nl +:+ "```" +:+ Str.nl +:+ "x = 1/0" +:+ Str.nl +:+ "```"
    /\ Str.contains "x = 1/0" prompt = true.
Proof.
  apply (explain_after_review (replying "Critical Issues") (replying "It divides by zero.")
           "x = 1/0" "auto-detect" "Critical Issues" fresh after_review);
    [reflexivity | discriminate].
Defined.
